(** * STLINK-V3 SPI bridge driver (stlinkv3_spi.c): shallow embedding

    The driver talks to the probe through [libusb_bulk_transfer] only.  The
    probe is an abstract device: a state type with a transition function that
    answers one bulk transfer.  Every driver function becomes a computation
    that threads the device state, records the transfers it issued (in order)
    and may hit undefined behaviour (the unguarded unsigned division of
    [stlinkv3_spi_calc_prescaler]).

    Conventions:
    - C integers are [Z]; casts are written out ([uint8], [uint16], [uint32],
      [int32]).  [unsigned int] and [int] are 32 bits wide.
    - byte buffers are [list Z]; a cell that was never written reads as 0.
    - an [int] return value stays an [int] for the functions the rest of
      flashrom calls ([stlinkv3_spi_transmit], [stlinkv3_spi_init]) and for
      [stlinkv3_spi_open] and [stlinkv3_spi_set_SPI_NSS]; helpers that return
      a value through an out-pointer return [Some v] for 0 and [None] for -1.
    - [msg_perr]/[msg_pinfo]/[msg_pdbg] only print; they are not modelled. *)

From Stdlib Require Import ZArith Lia String Ascii.
From stdpp Require Import base list.

Local Open Scope Z_scope.

(** ** Machine integers *)

Definition uint8 (x : Z) : Z := x mod 2 ^ 8.
Definition uint16 (x : Z) : Z := x mod 2 ^ 16.
Definition uint32 (x : Z) : Z := x mod 2 ^ 32.
(** Conversion of an [unsigned int] to [int] (two's complement wrap). *)
Definition int32 (x : Z) : Z := (x + 2 ^ 31) mod 2 ^ 32 - 2 ^ 31.

Definition UINT16_MAX : Z := 65535.

(** ** Enumerations and constants of the driver *)

Inductive fw_version_check_result_t := FW_VERSION_OK | FW_VERSION_OLD.

Inductive SPI_prescaler_t :=
| SPI_BAUDRATEPRESCALER_2
| SPI_BAUDRATEPRESCALER_4
| SPI_BAUDRATEPRESCALER_8
| SPI_BAUDRATEPRESCALER_16
| SPI_BAUDRATEPRESCALER_32
| SPI_BAUDRATEPRESCALER_64
| SPI_BAUDRATEPRESCALER_128
| SPI_BAUDRATEPRESCALER_256.

(** The enumerator values (what [(uint8_t)prescaler] puts on the wire). *)
Definition prescaler_code (p : SPI_prescaler_t) : Z :=
  match p with
  | SPI_BAUDRATEPRESCALER_2 => 0
  | SPI_BAUDRATEPRESCALER_4 => 1
  | SPI_BAUDRATEPRESCALER_8 => 2
  | SPI_BAUDRATEPRESCALER_16 => 3
  | SPI_BAUDRATEPRESCALER_32 => 4
  | SPI_BAUDRATEPRESCALER_64 => 5
  | SPI_BAUDRATEPRESCALER_128 => 6
  | SPI_BAUDRATEPRESCALER_256 => 7
  end.

(** The divisor an enumerator stands for. *)
Definition prescaler_divisor (p : SPI_prescaler_t) : Z :=
  match p with
  | SPI_BAUDRATEPRESCALER_2 => 2
  | SPI_BAUDRATEPRESCALER_4 => 4
  | SPI_BAUDRATEPRESCALER_8 => 8
  | SPI_BAUDRATEPRESCALER_16 => 16
  | SPI_BAUDRATEPRESCALER_32 => 32
  | SPI_BAUDRATEPRESCALER_64 => 64
  | SPI_BAUDRATEPRESCALER_128 => 128
  | SPI_BAUDRATEPRESCALER_256 => 256
  end.

Definition all_prescalers : list SPI_prescaler_t :=
  [SPI_BAUDRATEPRESCALER_2; SPI_BAUDRATEPRESCALER_4; SPI_BAUDRATEPRESCALER_8;
   SPI_BAUDRATEPRESCALER_16; SPI_BAUDRATEPRESCALER_32; SPI_BAUDRATEPRESCALER_64;
   SPI_BAUDRATEPRESCALER_128; SPI_BAUDRATEPRESCALER_256].

Definition SPI_DIRECTION_2LINES_FULLDUPLEX : Z := 0.
Definition SPI_MODE_MASTER : Z := 1.
Definition SPI_DATASIZE_8B : Z := 1.
Definition SPI_CPOL_LOW : Z := 0.
Definition SPI_CPHA_1EDGE : Z := 0.
Definition SPI_FIRSTBIT_MSB : Z := 1.
Definition SPI_NSS_SOFT : Z := 0.

Inductive SPI_NSS_Level_t := SPI_NSS_LOW | SPI_NSS_HIGH.

Definition nss_code (l : SPI_NSS_Level_t) : Z :=
  match l with SPI_NSS_LOW => 0 | SPI_NSS_HIGH => 1 end.

Definition ST_GETVERSION_EXT : Z := 0xFB.
Definition STLINK_BRIDGE_COMMAND : Z := 0xFC.
Definition STLINK_BRIDGE_CLOSE : Z := 0x01.
Definition STLINK_BRIDGE_GET_RWCMD_STATUS : Z := 0x02.
Definition STLINK_BRIDGE_GET_CLOCK : Z := 0x03.
Definition STLINK_BRIDGE_INIT_SPI : Z := 0x20.
Definition STLINK_BRIDGE_WRITE_SPI : Z := 0x21.
Definition STLINK_BRIDGE_READ_SPI : Z := 0x22.
Definition STLINK_BRIDGE_CS_SPI : Z := 0x23.
Definition STLINK_SPI_COM : Z := 0x02.
Definition STLINK_EP_OUT : Z := 0x06.
Definition STLINK_EP_IN : Z := 0x86.
Definition FIRMWARE_BRIDGE_STLINK_V3_LAST_VERSION : Z := 3.
Definition USB_TIMEOUT : Z := 5000.

(** [LIBUSB_TRANSFER_COMPLETED] is the first enumerator of libusb's
    [enum libusb_transfer_status]. *)
Definition LIBUSB_TRANSFER_COMPLETED : Z := 0.

(** ** Buffers *)

(** [buf[i]] *)
Definition cell (buf : list Z) (i : nat) : Z := default 0 (buf !! i).

(** [memset(buf, 0, n)] on a fresh array of [n] bytes. *)
Definition zeroed (n : nat) : list Z := replicate n 0.

(** An input buffer after a transfer delivered [recv] into it. *)
Definition deliver (buf recv : list Z) : list Z :=
  take (length buf) (recv ++ drop (length recv) buf).

(** ** The C library's strtoul, base 0

    [strtoul(nptr, &endptr, 0)] after ISO C 7.22.1.4: white space, an optional
    sign, then a hexadecimal ([0x]/[0X] and at least one digit), octal (leading
    [0]) or decimal digit string.  The result is the value (negated in the
    unsigned type after a minus sign, [ULONG_MAX] when out of range) and the
    rest of the string, which is where [endptr] points; without any digit the
    value is 0 and [endptr] is [nptr]. *)

Definition isspace (c : ascii) : bool :=
  let n := Z.of_nat (nat_of_ascii c) in
  (n =? 32) || ((9 <=? n) && (n <=? 13)).

Definition digit_of (c : ascii) : option Z :=
  let n := Z.of_nat (nat_of_ascii c) in
  if (48 <=? n) && (n <=? 57) then Some (n - 48)
  else if (97 <=? n) && (n <=? 122) then Some (n - 87)
  else if (65 <=? n) && (n <=? 90) then Some (n - 55)
  else None.

Definition is_digit_in (base : Z) (c : ascii) : bool :=
  match digit_of c with
  | Some v => v <? base
  | None => false
  end.

Fixpoint skip_spaces (s : string) : string :=
  match s with
  | String c s' => if isspace c then skip_spaces s' else s
  | EmptyString => s
  end.

Fixpoint scan_digits (base acc : Z) (s : string) : Z * string :=
  match s with
  | String c s' =>
      match digit_of c with
      | Some v => if v <? base then scan_digits base (acc * base + v) s' else (acc, s)
      | None => (acc, s)
      end
  | EmptyString => (acc, s)
  end.

Definition strtoul (ULONG_MAX : Z) (nptr : string) : Z * string :=
  let s := skip_spaces nptr in
  let '(negative, s) :=
    match s with
    | String "-" s' => (true, s')
    | String "+" s' => (false, s')
    | _ => (false, s)
    end in
  let '(base, s) :=
    match s with
    | String "0" (String x (String h s')) =>
        if (Ascii.eqb x "x" || Ascii.eqb x "X") && is_digit_in 16 h
        then (16, String h s') else (8, s)
    | String "0" _ => (8, s)
    | _ => (10, s)
    end in
  match s with
  | String c _ =>
      if is_digit_in base c then
        let '(v, endptr) := scan_digits base 0 s in
        (if ULONG_MAX <? v then ULONG_MAX
         else if negative then (ULONG_MAX + 1 - v) mod (ULONG_MAX + 1)
         else v, endptr)
      else (0, nptr)
  | EmptyString => (0, nptr)
  end.

(** ** Bulk transfers and the device *)

(** One call of [libusb_bulk_transfer]: endpoint, the buffer as the callee
    sees it (the bytes to send on an OUT endpoint), the [int length] and the
    timeout. *)
Record transfer := Transfer {
  endpoint : Z;
  buffer : list Z;
  xfer_length : Z;
  timeout : Z
}.

(** What the call reports: its return code, [*actual_length] and, on an IN
    endpoint, the bytes received. *)
Record completion := Completion {
  rc : Z;
  actualLength : Z;
  received : list Z
}.

Definition event : Type := transfer * completion.

(** The probe behind [stlinkv3_handle]. *)
Class UsbDevice (D : Type) := usb_bulk : D -> transfer -> completion * D.

(** ** Computations *)

Inductive res (A : Type) :=
| Done (a : A)
| Undefined.   (* undefined behaviour was reached: unsigned division by 0 *)
Arguments Done {A} a.
Arguments Undefined {A}.

Definition is_done {A} (r : res A) : bool :=
  match r with Done _ => true | Undefined => false end.

Section Driver.
Context {D : Type} `{UsbDevice D}.

(** A computation runs on a device state and yields its result, the new device
    state and the transfers it issued, oldest first. *)
Definition M (A : Type) : Type := D -> res A * D * list event.

Definition ret {A} (a : A) : M A := fun d => (Done a, d, []).

Definition bind {A B} (m : M A) (f : A -> M B) : M B :=
  fun d =>
    match m d with
    | (Done a, d1, t1) =>
        match f a d1 with (r, d2, t2) => (r, d2, t1 ++ t2) end
    | (Undefined, d1, t1) => (Undefined, d1, t1)
    end.

Definition undefined {A} : M A := fun d => (Undefined, d, []).

Notation "'do' x <- m ; k" := (bind m (fun x => k))
  (at level 10, x name, m at level 100, k at level 200).

Definition libusb_bulk_transfer (ep : Z) (data : list Z) (len : Z) : M completion :=
  fun d =>
    let t := Transfer ep data len USB_TIMEOUT in
    match usb_bulk d t with (c, d') => (Done c, d', [(t, c)]) end.

(** [a / b] on [uint32_t] operands. *)
Definition udiv (a b : Z) : M Z :=
  if b =? 0 then undefined else ret (a / b).

(** [rc != LIBUSB_TRANSFER_COMPLETED || actualLength != expected] *)
Definition failed (c : completion) (expected : Z) : bool :=
  negb (rc c =? LIBUSB_TRANSFER_COMPLETED) || negb (actualLength c =? expected).

(** The same test where [expected] is an [unsigned int]: [actualLength] is
    converted to [unsigned int] before the comparison. *)
Definition failed_u (c : completion) (expected : Z) : bool :=
  negb (rc c =? LIBUSB_TRANSFER_COMPLETED) || negb (uint32 (actualLength c) =? expected).

(** *** stlinkv3_get_clk *)

Definition get_clk_command : list Z :=
  <[2%nat := STLINK_SPI_COM]>
    (<[1%nat := STLINK_BRIDGE_GET_CLOCK]>
       (<[0%nat := STLINK_BRIDGE_COMMAND]> (zeroed 16))).

(** The caller always passes a valid pointer, so the NULL test is dropped and
    [*bridge_input_clk] becomes the result. *)
Definition stlinkv3_get_clk : M (option Z) :=
  do c <- libusb_bulk_transfer STLINK_EP_OUT get_clk_command 16 ;
  if failed c 16 then ret None
  else
    do c <- libusb_bulk_transfer STLINK_EP_IN (zeroed 12) 12 ;
    if failed c 12 then ret None
    else
      let answer := deliver (zeroed 12) (received c) in
      ret (Some (uint32 (Z.lor (Z.lor (Z.lor (cell answer 4)
                                             (Z.shiftl (cell answer 5) 8))
                                      (Z.shiftl (cell answer 6) 16))
                               (Z.shiftl (cell answer 7) 24)))).

(** *** stlinkv3_spi_calc_prescaler *)

(** The if-chain on [calculated_prescaler]: the enumerator and
    [prescaler_value]. *)
Definition select_prescaler (calculated_prescaler : Z) : SPI_prescaler_t * Z :=
  if calculated_prescaler <=? 2 then (SPI_BAUDRATEPRESCALER_2, 2)
  else if calculated_prescaler <=? 4 then (SPI_BAUDRATEPRESCALER_4, 4)
  else if calculated_prescaler <=? 8 then (SPI_BAUDRATEPRESCALER_8, 8)
  else if calculated_prescaler <=? 16 then (SPI_BAUDRATEPRESCALER_16, 16)
  else if calculated_prescaler <=? 32 then (SPI_BAUDRATEPRESCALER_32, 32)
  else if calculated_prescaler <=? 64 then (SPI_BAUDRATEPRESCALER_64, 64)
  else if calculated_prescaler <=? 128 then (SPI_BAUDRATEPRESCALER_128, 128)
  else if calculated_prescaler <=? 256 then (SPI_BAUDRATEPRESCALER_256, 256)
  else (SPI_BAUDRATEPRESCALER_256, 256).

(** Returns [Some (prescaler, calculated_freq_in_kHz)] for 0. *)
Definition stlinkv3_spi_calc_prescaler (reqd_freq_in_kHz : Z)
  : M (option (SPI_prescaler_t * Z)) :=
  do clk <- stlinkv3_get_clk ;
  match clk with
  | None => ret None
  | Some bridge_clk_in_kHz =>
      do calculated_prescaler <- udiv bridge_clk_in_kHz reqd_freq_in_kHz ;
      let '(prescaler, prescaler_value) := select_prescaler calculated_prescaler in
      ret (Some (prescaler, uint16 (bridge_clk_in_kHz / prescaler_value)))
  end.

(** *** stlinkv3_check_version *)

Definition version_command : list Z :=
  <[1%nat := 0x80]> (<[0%nat := ST_GETVERSION_EXT]> (zeroed 16)).

(** [answer] is not cleared here; on the only path that reads it all 12 bytes
    were received. *)
Definition stlinkv3_check_version : M (option fw_version_check_result_t) :=
  do c <- libusb_bulk_transfer STLINK_EP_OUT version_command 16 ;
  if failed c 16 then ret None
  else
    do c <- libusb_bulk_transfer STLINK_EP_IN (zeroed 12) 12 ;
    if failed c 12 then ret None
    else
      let answer := deliver (zeroed 12) (received c) in
      ret (Some (if FIRMWARE_BRIDGE_STLINK_V3_LAST_VERSION <=? cell answer 4
                 then FW_VERSION_OK else FW_VERSION_OLD)).

(** *** stlinkv3_spi_open *)

Definition init_command (prescaler : SPI_prescaler_t) : list Z :=
  <[6%nat := uint8 (prescaler_code prescaler)]>
    (<[5%nat := SPI_NSS_SOFT]>
       (<[4%nat := SPI_DATASIZE_8B]>
          (<[3%nat := Z.lor (Z.lor (Z.lor SPI_MODE_MASTER
                                          (Z.shiftl SPI_CPHA_1EDGE 1))
                                   (Z.shiftl SPI_CPOL_LOW 2))
                            (Z.shiftl SPI_FIRSTBIT_MSB 3)]>
             (<[2%nat := SPI_DIRECTION_2LINES_FULLDUPLEX]>
                (<[1%nat := STLINK_BRIDGE_INIT_SPI]>
                   (<[0%nat := STLINK_BRIDGE_COMMAND]> (zeroed 16))))))).

(** The test after the STLINK_BRIDGE_INIT_SPI send:
    [rc != LIBUSB_TRANSFER_COMPLETED && actualLength != sizeof(command)]. *)
Definition init_send_failed (c : completion) : bool :=
  negb (rc c =? LIBUSB_TRANSFER_COMPLETED) && negb (actualLength c =? 16).

Definition stlinkv3_spi_open (reqested_freq_in_kHz : Z) : M Z :=
  do v <- stlinkv3_check_version ;
  match v with
  | None => ret (-1)
  | Some fw_check_result =>
      match fw_check_result with
      | FW_VERSION_OLD => ret (-1)
      | FW_VERSION_OK =>
          do p <- stlinkv3_spi_calc_prescaler reqested_freq_in_kHz ;
          match p with
          | None => ret (-1)
          | Some (prescaler, SCK_freq_in_kHz) =>
              do c <- libusb_bulk_transfer STLINK_EP_OUT (init_command prescaler) 16 ;
              if init_send_failed c then ret (-1)
              else
                do c <- libusb_bulk_transfer STLINK_EP_IN (zeroed 2) 2 ;
                if failed c 2 then ret (-1) else ret 0
          end
      end
  end.

(** *** stlinkv3_get_last_readwrite_status *)

Definition status_command : list Z :=
  <[1%nat := STLINK_BRIDGE_GET_RWCMD_STATUS]>
    (<[0%nat := STLINK_BRIDGE_COMMAND]> (zeroed 16)).

(** [answer] is a [uint16_t[4]] filled through a byte pointer; element [i] is
    read on a little-endian host. *)
Definition cell16 (buf : list Z) (i : nat) : Z :=
  Z.lor (cell buf (2 * i)) (Z.shiftl (cell buf (2 * i + 1)) 8).

(** [(uint32_t)answer[2] | (uint32_t)answer[3]<<16] *)
Definition decode_status (answer : list Z) : Z :=
  uint32 (Z.lor (cell16 answer 2) (Z.shiftl (cell16 answer 3) 16)).

Definition stlinkv3_get_last_readwrite_status : M (option Z) :=
  do c <- libusb_bulk_transfer STLINK_EP_OUT status_command 16 ;
  if failed c 16 then ret None
  else
    do c <- libusb_bulk_transfer STLINK_EP_IN (zeroed 8) 8 ;
    if failed c 8 then ret None
    else ret (Some (decode_status (deliver (zeroed 8) (received c)))).

(** *** stlinkv3_spi_set_SPI_NSS *)

Definition nss_command (NSS_level : SPI_NSS_Level_t) : list Z :=
  <[2%nat := uint8 (nss_code NSS_level)]>
    (<[1%nat := STLINK_BRIDGE_CS_SPI]>
       (<[0%nat := STLINK_BRIDGE_COMMAND]> (zeroed 16))).

Definition stlinkv3_spi_set_SPI_NSS (NSS_level : SPI_NSS_Level_t) : M Z :=
  do c <- libusb_bulk_transfer STLINK_EP_OUT (nss_command NSS_level) 16 ;
  if failed c 16 then ret (-1)
  else
    do c <- libusb_bulk_transfer STLINK_EP_IN (zeroed 2) 2 ;
    if failed c 2 then ret (-1) else ret 0.

(** *** stlinkv3_spi_transmit *)

(** The loop [for (i = 0; (i < 8) && (i < write_cnt); i++)
    command[4+i] = write_arr[i];] started at [i]. *)
Fixpoint copy_inline (fuel : nat) (i write_cnt : Z) (write_arr command : list Z)
  : list Z :=
  match fuel with
  | O => command
  | S fuel' =>
      if (i <? 8) && (i <? write_cnt)
      then copy_inline fuel' (i + 1) write_cnt write_arr
             (<[Z.to_nat (4 + i) := cell write_arr (Z.to_nat i)]> command)
      else command
  end.

(** [command] as sent by the first transfer of the write phase. *)
Definition write_command (write_cnt : Z) (write_arr : list Z) : list Z :=
  copy_inline 8 0 write_cnt write_arr
    (<[3%nat := uint8 (Z.shiftr write_cnt 8)]>
       (<[2%nat := uint8 write_cnt]>
          (<[1%nat := STLINK_BRIDGE_WRITE_SPI]>
             (<[0%nat := STLINK_BRIDGE_COMMAND]> (zeroed 16))))).

(** [command] as sent by the read phase: the write frame with bytes 1..3
    overwritten. *)
Definition read_command (read_cnt : Z) (command : list Z) : list Z :=
  <[3%nat := uint8 (Z.shiftr read_cnt 8)]>
    (<[2%nat := uint8 read_cnt]>
       (<[1%nat := STLINK_BRIDGE_READ_SPI]> command)).

(** Label [transmit_err]. *)
Definition transmit_err (read_arr : list Z) : M (Z * list Z) :=
  do r <- stlinkv3_spi_set_SPI_NSS SPI_NSS_HIGH ;
  ret (-1, read_arr).

(** From the second [stlinkv3_get_last_readwrite_status] to [return 0]. *)
Definition transmit_finish (read_arr : list Z) : M (Z * list Z) :=
  do st <- stlinkv3_get_last_readwrite_status ;
  match st with
  | None => transmit_err read_arr
  | Some rw_status =>
      if negb (rw_status =? 0) then transmit_err read_arr
      else
        do r <- stlinkv3_spi_set_SPI_NSS SPI_NSS_HIGH ;
        if negb (r =? 0) then ret (-1, read_arr) else ret (0, read_arr)
  end.

(** The block [if (read_cnt) { ... }] and what follows it. *)
Definition transmit_read (read_cnt : Z) (command read_arr : list Z)
  : M (Z * list Z) :=
  if negb (read_cnt =? 0) then
    do c <- libusb_bulk_transfer STLINK_EP_OUT (read_command read_cnt command) 16 ;
    if failed c 16 then transmit_err read_arr
    else
      do c <- libusb_bulk_transfer STLINK_EP_IN read_arr (int32 read_cnt) ;
      let read_arr := deliver read_arr (received c) in
      if failed_u c read_cnt then transmit_err read_arr
      else transmit_finish read_arr
  else transmit_finish read_arr.

(** From the first [stlinkv3_get_last_readwrite_status] on. *)
Definition transmit_after_write (read_cnt : Z) (command read_arr : list Z)
  : M (Z * list Z) :=
  do st <- stlinkv3_get_last_readwrite_status ;
  match st with
  | None => ret (-1, read_arr)
  | Some rw_status =>
      if negb (rw_status =? 0) then transmit_err read_arr
      else transmit_read read_cnt command read_arr
  end.

(** [flash] is unused by the function and dropped; the result carries the
    contents of [read_arr] at return. *)
Definition stlinkv3_spi_transmit (write_cnt read_cnt : Z)
    (write_arr read_arr : list Z) : M (Z * list Z) :=
  do r <- stlinkv3_spi_set_SPI_NSS SPI_NSS_LOW ;
  if negb (r =? 0) then ret (-1, read_arr)
  else
    let command := write_command write_cnt write_arr in
    do c <- libusb_bulk_transfer STLINK_EP_OUT command 16 ;
    if failed c 16 then transmit_err read_arr
    else if 8 <? write_cnt then
      do c <- libusb_bulk_transfer STLINK_EP_OUT (drop 8 write_arr)
                (int32 (write_cnt - 8)) ;
      if failed_u c (write_cnt - 8) then transmit_err read_arr
      else transmit_after_write read_cnt command read_arr
    else transmit_after_write read_cnt command read_arr.

(** *** stlinkv3_spi_shutdown *)

Definition close_command : list Z :=
  <[2%nat := STLINK_SPI_COM]>
    (<[1%nat := STLINK_BRIDGE_CLOSE]>
       (<[0%nat := STLINK_BRIDGE_COMMAND]> (zeroed 16))).

(** Both failures are only reported with [msg_perr]; [libusb_close] and
    [libusb_exit] issue no transfer. *)
Definition stlinkv3_spi_shutdown : M Z :=
  do c <- libusb_bulk_transfer STLINK_EP_OUT close_command 16 ;
  do c <- libusb_bulk_transfer STLINK_EP_IN (zeroed 2) 2 ;
  ret 0.

(** *** spi_programmer_stlinkv3 *)

(** The fields of [struct spi_master] that this file fills with its own
    values; the other members point at flashrom's default helpers. *)
Record spi_master := {
  max_data_read : Z;
  max_data_write : Z;
  command : Z -> Z -> list Z -> list Z -> M (Z * list Z)
}.

Definition spi_programmer_stlinkv3 : spi_master := {|
  max_data_read := UINT16_MAX;
  max_data_write := UINT16_MAX;
  command := stlinkv3_spi_transmit
|}.

(** *** stlinkv3_spi_init

    What the function gets from the rest of flashrom and from libusb is taken
    as parameters: whether [libusb_init] produced a context, the strings of
    the programmer parameters [serial] and [spispeed]
    ([extract_programmer_param]; [None] is NULL), whether
    [usb_dev_get_by_vid_pid_serial] found the probe, and the return values of
    [register_shutdown] and [register_spi_master].  [ULONG_MAX] is the
    platform's. *)
Definition stlinkv3_spi_init (ULONG_MAX : Z) (usb_ctx_ok : bool)
    (serialno : option string) (handle_found : bool)
    (speed_str : option string)
    (register_shutdown_rc register_spi_master_rc : Z) : M Z :=
  if negb usb_ctx_ok then ret 1
  else if negb handle_found then ret 1
  else
    let open_and_register (sck_freq_kHz : Z) : M Z :=
      do r <- stlinkv3_spi_open sck_freq_kHz ;
      if negb (r =? 0) then ret 1
      else if negb (register_shutdown_rc =? 0) then ret 1
      else if negb (register_spi_master_rc =? 0) then ret 1
      else ret 0 in
    match speed_str with
    | Some str =>
        let '(value, endptr) := strtoul ULONG_MAX str in
        let sck_freq_kHz := uint16 value in
        match endptr with
        | String _ _ => ret (-1)
        | EmptyString => open_and_register sck_freq_kHz
        end
    | None => open_and_register 1000
    end.

End Driver.

(** ** Test doubles for the probe *)

(** A scripted probe: it answers the n-th transfer with the n-th completion
    of the script, whatever was asked, and reports LIBUSB_ERROR_NO_DEVICE once
    the script is used up. *)
Definition script : Type := list completion.

#[global] Instance script_device : UsbDevice script :=
  fun d _ =>
    match d with
    | c :: d' => (c, d')
    | [] => (Completion (-4) 0 [], [])
    end.

(** A transfer that completed with [n] bytes, with and without data. *)
Definition done_out (n : Z) : completion := Completion 0 n [].
Definition done_in (data : list Z) : completion :=
  Completion 0 (Z.of_nat (length data)) data.

(** Answers of a probe with bridge firmware [v], input clock [clk] (kHz) and
    last read/write status [st]. *)
Definition version_answer (v : Z) : list Z := [0; 0; 0; 0; v; 0; 0; 0; 0; 0; 0; 0].
Definition clk_answer (clk : Z) : list Z :=
  [0; 0; 0; 0; uint8 clk; uint8 (Z.shiftr clk 8); uint8 (Z.shiftr clk 16);
   uint8 (Z.shiftr clk 24); 0; 0; 0; 0].
Definition status_answer (st : Z) : list Z :=
  [0; 0; 0; 0; uint8 st; uint8 (Z.shiftr st 8); uint8 (Z.shiftr st 16);
   uint8 (Z.shiftr st 24)].
Definition ack : list Z := [0; 0].

(** ** Observations on a run *)

(** The transfer was reported complete with exactly the requested length. *)
Definition event_ok (e : event) : Prop :=
  rc e.2 = LIBUSB_TRANSFER_COMPLETED /\ actualLength e.2 = xfer_length e.1.

(** The payloads written to the OUT endpoint, oldest first. *)
Fixpoint sent (tr : list event) : list (list Z) :=
  match tr with
  | [] => []
  | (t, _) :: tr' =>
      if endpoint t =? STLINK_EP_OUT then buffer t :: sent tr' else sent tr'
  end.

(** The transfers the driver issues with a fixed frame. *)
Definition out_frame (frame : list Z) : transfer :=
  Transfer STLINK_EP_OUT frame 16 USB_TIMEOUT.
Definition in_frame (n : nat) : transfer :=
  Transfer STLINK_EP_IN (zeroed n) (Z.of_nat n) USB_TIMEOUT.

(** The status words the probe reported during a run: every answer to a
    STLINK_BRIDGE_GET_RWCMD_STATUS command, decoded as the driver does. *)
Fixpoint status_polls (tr : list event) : list Z :=
  match tr with
  | [] => []
  | (t1, _) :: tr' =>
      match tr' with
      | [] => []
      | (t2, c2) :: _ =>
          if (endpoint t1 =? STLINK_EP_OUT) && (endpoint t2 =? STLINK_EP_IN)
             && (xfer_length t2 =? 8) && bool_decide (buffer t1 = status_command)
          then decode_status (deliver (zeroed 8) (received c2)) :: status_polls tr'
          else status_polls tr'
      end
  end.

(** The first transfer of a run goes to the OUT endpoint. *)
Definition starts_out (tr : list event) : Prop :=
  match tr with
  | (t, _) :: _ => endpoint t = STLINK_EP_OUT
  | [] => False
  end.

(** The 16-bit length of a write or read command frame, as the probe reads
    it: byte 2 is the low byte and byte 3 the high byte. *)
Definition frame_length (frame : list Z) : Z :=
  cell frame 2 + 2 ^ 8 * cell frame 3.

(** ** Scripts used below *)

(** Chip-select goes low, the write frame goes out, then the OUT transfer of
    the status poll times out (LIBUSB_ERROR_TIMEOUT). *)
Definition script_status_poll_timeout : script :=
  [done_out 16; done_in ack; done_out 16; Completion (-7) 0 []].

(** Firmware 3, clock [clk], then the two transfers of the SPI initialization
    answered by [c] and an acknowledgement. *)
Definition script_open (clk : Z) (c : completion) : script :=
  [done_out 16; done_in (version_answer 3);
   done_out 16; done_in (clk_answer clk); c; done_in ack].

(** A whole transaction of at most 8 written bytes and a read: chip-select
    low, write frame, status [st1], read command and [data], status [st2],
    chip-select high. *)
Definition script_transaction (st1 st2 : Z) (data : list Z) : script :=
  [done_out 16; done_in ack; done_out 16;
   done_out 16; done_in (status_answer st1);
   done_out 16; done_in data;
   done_out 16; done_in (status_answer st2);
   done_out 16; done_in ack].

(** A write of 10 bytes without a read: the write frame is followed by a
    payload transfer of 2 bytes. *)
Definition script_long_write : script :=
  [done_out 16; done_in ack; done_out 16; done_out 2;
   done_out 16; done_in (status_answer 0);
   done_out 16; done_in (status_answer 0);
   done_out 16; done_in ack].

(** The clock query alone. *)
Definition script_clk (clk : Z) : script :=
  [done_out 16; done_in (clk_answer clk)].

(** ** Further observations *)

(** The test of the driver on a completed transfer, with the lengths compared
    as [unsigned int] the way [stlinkv3_spi_transmit] compares them. *)
Definition accepted (e : event) : Prop :=
  rc e.2 = LIBUSB_TRANSFER_COMPLETED /\
  uint32 (actualLength e.2) = uint32 (xfer_length e.1).

(** How a command/answer exchange (a 16-byte frame out, [n] bytes in) can
    end: the send fails and nothing is read, or the send completes and the
    answer is read; [ok] tells whether both completed. *)
Definition exchange_outcome (frame : list Z) (n : nat) (tr : list event)
    (ok : bool) : Prop :=
  exists c1,
    (tr = [(out_frame frame, c1)] /\ failed c1 16 = true /\ ok = false) \/
    (exists c2,
       tr = [(out_frame frame, c1); (in_frame n, c2)] /\
       failed c1 16 = false /\ ok = negb (failed c2 (Z.of_nat n))).

(** The transfers of a transaction in which nothing fails, in order. *)
Definition transaction_transfers (write_cnt read_cnt : Z)
    (write_arr read_arr : list Z) : list transfer :=
  [out_frame (nss_command SPI_NSS_LOW); in_frame 2;
   out_frame (write_command write_cnt write_arr)]
  ++ (if 8 <? write_cnt
      then [Transfer STLINK_EP_OUT (drop 8 write_arr) (int32 (write_cnt - 8))
              USB_TIMEOUT]
      else [])
  ++ [out_frame status_command; in_frame 8]
  ++ (if read_cnt =? 0 then []
      else [out_frame (read_command read_cnt (write_command write_cnt write_arr));
            Transfer STLINK_EP_IN read_arr (int32 read_cnt) USB_TIMEOUT])
  ++ [out_frame status_command; in_frame 8;
      out_frame (nss_command SPI_NSS_HIGH); in_frame 2].

(** The transfers of a transaction that is given up after the first status
    poll: no read command, no second poll. *)
Definition aborted_transfers (write_cnt : Z) (write_arr : list Z)
  : list transfer :=
  [out_frame (nss_command SPI_NSS_LOW); in_frame 2;
   out_frame (write_command write_cnt write_arr)]
  ++ (if 8 <? write_cnt
      then [Transfer STLINK_EP_OUT (drop 8 write_arr) (int32 (write_cnt - 8))
              USB_TIMEOUT]
      else [])
  ++ [out_frame status_command; in_frame 8;
      out_frame (nss_command SPI_NSS_HIGH); in_frame 2].

(** The transfers of a session open in which nothing fails. *)
Definition open_transfers (prescaler : SPI_prescaler_t) : list transfer :=
  [out_frame version_command; in_frame 12;
   out_frame get_clk_command; in_frame 12;
   out_frame (init_command prescaler); in_frame 2].

(** The [int] result 0. *)
Definition returned_zero (r : res Z) : bool :=
  match r with Done 0 => true | _ => false end.

(** [Some _] inside [Done]. *)
Definition returned_some {A} (r : res (option A)) : bool :=
  match r with Done (Some _) => true | _ => false end.

(** * Properties *)

Section DriverFacts.
Context {D : Type} `{UsbDevice D}.

(** ** Clock negotiation *)

Lemma select_prescaler_divisor (r : Z) :
  (select_prescaler r).2 = prescaler_divisor (select_prescaler r).1.
Proof.
  unfold select_prescaler.
  repeat (destruct (_ <=? _); [reflexivity|]); reflexivity.
Qed.

Lemma select_prescaler_least (r : Z) :
  r <= 256 ->
  r <= prescaler_divisor (select_prescaler r).1 /\
  forall q, r <= prescaler_divisor q ->
            prescaler_divisor (select_prescaler r).1 <= prescaler_divisor q.
Proof.
  intros Hr. unfold select_prescaler.
  repeat match goal with
         | |- context [if ?a <=? ?b then _ else _] =>
             destruct (Z.leb_spec0 a b);
             [split; [simpl; lia | intros []; simpl; lia] |]
         end.
  lia.
Qed.

Lemma select_prescaler_clamp (r : Z) :
  256 < r -> (select_prescaler r).1 = SPI_BAUDRATEPRESCALER_256.
Proof.
  intros Hr. unfold select_prescaler.
  repeat match goal with
         | |- context [if ?a <=? ?b then _ else _] =>
             destruct (Z.leb_spec0 a b); [lia |]
         end.
  reflexivity.
Qed.

(** With a nonzero request and a clock answer, the function returns the
    selected enumerator and the truncated quotient. *)
Lemma calc_prescaler_run (f c : Z) (d d' : D) (tr : list event) :
  stlinkv3_get_clk d = (Done (Some c), d', tr) ->
  f <> 0 ->
  stlinkv3_spi_calc_prescaler f d =
    (Done (Some ((select_prescaler (c / f)).1,
                 uint16 (c / prescaler_divisor (select_prescaler (c / f)).1))),
     d', tr).
Proof.
  intros Hclk Hf. unfold stlinkv3_spi_calc_prescaler, bind. rewrite Hclk.
  unfold udiv. destruct (Z.eqb_spec f 0) as [|_]; [contradiction|].
  unfold ret. rewrite <- select_prescaler_divisor.
  destruct (select_prescaler (c / f)) as [p v]. simpl.
  by rewrite app_nil_r.
Qed.

Lemma get_clk_range (c : Z) (d d' : D) (tr : list event) :
  stlinkv3_get_clk d = (Done (Some c), d', tr) -> 0 <= c < 2 ^ 32.
Proof.
  unfold stlinkv3_get_clk, bind, libusb_bulk_transfer, ret.
  destruct (usb_bulk d _) as [c1 d1]; destruct (failed c1 16); [discriminate|].
  destruct (usb_bulk d1 _) as [c2 d2]; destruct (failed c2 12); [discriminate|].
  intros [= <- _ _]. apply Z.mod_pos_bound. lia.
Qed.

Lemma get_clk_done (d : D) : is_done (stlinkv3_get_clk d).1.1 = true.
Proof.
  unfold stlinkv3_get_clk, bind, libusb_bulk_transfer, ret.
  destruct (usb_bulk d _) as [c1 d1]; destruct (failed c1 16); [reflexivity|].
  destruct (usb_bulk d1 _) as [c2 d2]; by destruct (failed c2 12).
Qed.

Lemma uint16_exact_iff (x : Z) : 0 <= x -> (uint16 x = x <-> x <= 65535).
Proof.
  intros Hx. unfold uint16. split.
  - intros E. pose proof (Z.mod_pos_bound x (2 ^ 16)). lia.
  - intros Hle. apply Z.mod_small. lia.
Qed.

Lemma prescaler_divisor_pos (p : SPI_prescaler_t) : 2 <= prescaler_divisor p <= 256.
Proof. destruct p; simpl; lia. Qed.

(** C2 (amended). When the bridge reports the input clock [c] and the request
    [f] is positive, the function selects the smallest divisor of
    {2,4,...,256} that is at least [c / f], selects 256 when [c / f > 256],
    and returns the quotient [c / d] reduced modulo 2^16, which is [c / d]
    itself whenever that quotient is at most 65535. *)
Theorem calc_prescaler_least_divisor (f c : Z) (d d' : D) (tr : list event) :
  stlinkv3_get_clk d = (Done (Some c), d', tr) ->
  0 < f ->
  exists p,
    stlinkv3_spi_calc_prescaler f d =
      (Done (Some (p, (c / prescaler_divisor p) mod 2 ^ 16)), d', tr) /\
    In p all_prescalers /\
    (c / f <= 256 ->
     c / f <= prescaler_divisor p /\
     forall q, c / f <= prescaler_divisor q ->
               prescaler_divisor p <= prescaler_divisor q) /\
    (256 < c / f -> prescaler_divisor p = 256) /\
    (c / prescaler_divisor p <= 65535 ->
     (c / prescaler_divisor p) mod 2 ^ 16 = c / prescaler_divisor p).
Proof.
  intros Hclk Hf. exists (select_prescaler (c / f)).1.
  split; [apply calc_prescaler_run; [exact Hclk | lia] |].
  split; [destruct (select_prescaler (c / f)).1; simpl; tauto |].
  split; [apply select_prescaler_least |].
  split; [intros Hbig; by rewrite select_prescaler_clamp |].
  intros Hfit. apply (uint16_exact_iff (c / _)); [|exact Hfit].
  pose proof (get_clk_range _ _ _ _ Hclk).
  pose proof (prescaler_divisor_pos (select_prescaler (c / f)).1).
  apply Z.div_pos; lia.
Qed.

(** C10. The frequency that [stlinkv3_spi_calc_prescaler] hands back went
    through a [uint16_t]: it is the quotient of the bridge clock by the selected
    divisor modulo 2^16, and it is that quotient exactly when the quotient is
    at most 65535. *)
Theorem calc_prescaler_freq_truncated (f c freq : Z) (p : SPI_prescaler_t)
    (d d' : D) (tr : list event) :
  stlinkv3_get_clk d = (Done (Some c), d', tr) ->
  stlinkv3_spi_calc_prescaler f d = (Done (Some (p, freq)), d', tr) ->
  freq = (c / prescaler_divisor p) mod 2 ^ 16 /\
  0 <= freq <= 65535 /\
  (freq = c / prescaler_divisor p <-> c / prescaler_divisor p <= 65535).
Proof.
  intros Hclk Hrun.
  assert (Hf : f <> 0).
  { intros ->. revert Hrun. unfold stlinkv3_spi_calc_prescaler, bind.
    rewrite Hclk. discriminate. }
  rewrite (calc_prescaler_run _ _ _ _ _ Hclk Hf) in Hrun.
  injection Hrun as <- <-.
  set (q := c / prescaler_divisor (select_prescaler (c / f)).1).
  assert (0 <= q).
  { pose proof (get_clk_range _ _ _ _ Hclk).
    pose proof (prescaler_divisor_pos (select_prescaler (c / f)).1).
    apply Z.div_pos; lia. }
  split; [reflexivity|]. split.
  - unfold uint16. pose proof (Z.mod_pos_bound q (2 ^ 16)). lia.
  - by apply uint16_exact_iff.
Qed.

(** The rounding works whenever the selected divisor is strictly above the
    truncated ratio: then the frequency handed back is below the request. *)
Lemma calc_prescaler_within_request (f c : Z) (d d' : D) (tr : list event) :
  stlinkv3_get_clk d = (Done (Some c), d', tr) ->
  0 < f ->
  c / f < prescaler_divisor (select_prescaler (c / f)).1 ->
  exists freq,
    stlinkv3_spi_calc_prescaler f d =
      (Done (Some ((select_prescaler (c / f)).1, freq)), d', tr) /\
    freq <= f.
Proof.
  intros Hclk Hf Hlt. eexists. split; [apply calc_prescaler_run; [done|lia]|].
  pose proof (get_clk_range _ _ _ _ Hclk) as Hc.
  pose proof (prescaler_divisor_pos (select_prescaler (c / f)).1) as Hp.
  set (p := prescaler_divisor (select_prescaler (c / f)).1) in *.
  assert (c / p < f).
  { apply Z.div_lt_upper_bound; [lia|].
    pose proof (Z.mul_succ_div_gt c f Hf). nia. }
  unfold uint16. pose proof (Z.mod_le (c / p) (2 ^ 16)).
  assert (0 <= c / p) by (apply Z.div_pos; lia). lia.
Qed.

(** C8. The division of [stlinkv3_spi_calc_prescaler] is not guarded: with a
    clock answer and a request of 0 the function reaches the division by zero,
    while any nonzero request never does; and [stlinkv3_spi_init] lets the
    value through: [strtoul] accepts the string 0 with nothing left over, so
    on a probe with current firmware the call ends in that division. *)
Theorem calc_prescaler_zero_request (ULONG_MAX c rs rm : Z) (serial : option string)
    (d d1 d2 : D) (tr1 tr2 : list event) :
  0 < ULONG_MAX ->
  stlinkv3_check_version d = (Done (Some FW_VERSION_OK), d1, tr1) ->
  stlinkv3_get_clk d1 = (Done (Some c), d2, tr2) ->
  stlinkv3_spi_calc_prescaler 0 d1 = (Undefined, d2, tr2) /\
  (forall f d0, f <> 0 -> is_done (stlinkv3_spi_calc_prescaler f d0).1.1 = true) /\
  strtoul ULONG_MAX "0" = (0, EmptyString) /\
  stlinkv3_spi_open 0 d = (Undefined, d2, tr1 ++ tr2) /\
  stlinkv3_spi_init ULONG_MAX true serial true (Some "0"%string) rs rm d =
    (Undefined, d2, tr1 ++ tr2).
Proof.
  intros HU Hver Hclk.
  assert (Hcalc : stlinkv3_spi_calc_prescaler 0 d1 = (Undefined, d2, tr2)).
  { unfold stlinkv3_spi_calc_prescaler, bind. rewrite Hclk. simpl.
    by rewrite app_nil_r. }
  assert (Hopen : stlinkv3_spi_open 0 d = (Undefined, d2, tr1 ++ tr2)).
  { unfold stlinkv3_spi_open, bind. by rewrite Hver, Hcalc. }
  assert (Hstr : strtoul ULONG_MAX "0" = (0, EmptyString)).
  { change (strtoul ULONG_MAX "0")
      with (if ULONG_MAX <? 0 then ULONG_MAX else 0, EmptyString).
    destruct (Z.ltb_spec ULONG_MAX 0); [lia | reflexivity]. }
  repeat split; try assumption.
  - intros f d0 Hf. unfold stlinkv3_spi_calc_prescaler, bind.
    pose proof (get_clk_done d0) as Hdone.
    destruct (stlinkv3_get_clk d0) as [[[[clk|]|] d3] t3];
      [|reflexivity|discriminate].
    unfold udiv. destruct (Z.eqb_spec f 0); [contradiction|].
    simpl. by destruct (select_prescaler (clk / f)).
  - unfold stlinkv3_spi_init. rewrite Hstr. cbn [negb].
    change (uint16 0) with 0. unfold bind. by rewrite Hopen.
Qed.

End DriverFacts.

(** ** Command frames *)

Lemma cell_insert_eq (l : list Z) (i : nat) (x : Z) :
  (i < length l)%nat -> cell (<[i:=x]> l) i = x.
Proof. intros Hi. unfold cell. by rewrite list_lookup_insert_eq. Qed.

Lemma cell_insert_ne (l : list Z) (i j : nat) (x : Z) :
  i <> j -> cell (<[i:=x]> l) j = cell l j.
Proof. intros Hij. unfold cell. by rewrite list_lookup_insert_ne. Qed.

Lemma copy_inline_length fuel i n write_arr command :
  length (copy_inline fuel i n write_arr command) = length command.
Proof.
  revert i command. induction fuel as [|fuel IH]; intros i command; [reflexivity|].
  simpl. destruct (_ && _); [|reflexivity]. by rewrite IH, length_insert.
Qed.

(** What the loop leaves in [command]: with enough fuel to reach [i = 8], the
    cells [4 + i .. 4 + min 8 n) hold the payload and the others are
    untouched. *)
Lemma copy_inline_cell fuel i n write_arr command (k : nat) :
  0 <= i ->
  8 <= Z.of_nat fuel + i ->
  length command = 16%nat ->
  cell (copy_inline fuel i n write_arr command) k =
    if decide (4 + i <= Z.of_nat k < 4 + Z.min 8 n)
    then cell write_arr (k - 4) else cell command k.
Proof.
  revert i command. induction fuel as [|fuel IH]; intros i command Hi Hfuel Hlen.
  - simpl. destruct (decide _); [lia | reflexivity].
  - simpl. destruct (Z.ltb_spec i 8); cbn [andb];
      [destruct (Z.ltb_spec i n)|]; cbn [andb].
    + rewrite IH by (rewrite ?length_insert; lia).
      destruct (decide (Z.of_nat k = 4 + i)) as [Hk|Hk].
      * assert (k = Z.to_nat (4 + i)) as -> by lia.
        rewrite cell_insert_eq by lia.
        rewrite decide_False, decide_True by lia. f_equal. lia.
      * rewrite cell_insert_ne by lia.
        destruct (decide _), (decide _); (reflexivity || lia).
    + destruct (decide _); [lia | reflexivity].
    + destruct (decide _); [lia | reflexivity].
Qed.

(** More fuel than the eight iterations changes nothing. *)
Lemma copy_inline_succ fuel i n write_arr command :
  8 <= Z.of_nat fuel + i ->
  copy_inline (S fuel) i n write_arr command = copy_inline fuel i n write_arr command.
Proof.
  revert i command. induction fuel as [|fuel IH]; intros i command Hfuel.
  - simpl. destruct (Z.ltb_spec i 8); [lia | reflexivity].
  - change (copy_inline (S (S fuel)) i n write_arr command)
      with (if (i <? 8) && (i <? n)
            then copy_inline (S fuel) (i + 1) n write_arr
                   (<[Z.to_nat (4 + i) := cell write_arr (Z.to_nat i)]> command)
            else command).
    rewrite IH by lia. reflexivity.
Qed.

Lemma copy_inline_fuel fuel n write_arr command :
  (8 <= fuel)%nat ->
  copy_inline fuel 0 n write_arr command = copy_inline 8 0 n write_arr command.
Proof.
  intros Hfuel. induction Hfuel as [|fuel Hfuel IH]; [reflexivity|].
  rewrite copy_inline_succ by lia. exact IH.
Qed.

Lemma write_command_length n write_arr : length (write_command n write_arr) = 16%nat.
Proof. unfold write_command. by rewrite copy_inline_length. Qed.

Lemma write_command_cell n write_arr (k : nat) :
  cell (write_command n write_arr) k =
    if decide (4 <= Z.of_nat k < 4 + Z.min 8 n) then cell write_arr (k - 4)
    else cell [STLINK_BRIDGE_COMMAND; STLINK_BRIDGE_WRITE_SPI; uint8 n;
               uint8 (Z.shiftr n 8)] k.
Proof.
  unfold write_command. rewrite copy_inline_cell by (done || lia).
  destruct (decide _); [reflexivity|].
  do 16 (destruct k as [|k]; [reflexivity|]). reflexivity.
Qed.

Lemma read_command_cell n command (k : nat) :
  length command = 16%nat ->
  cell (read_command n command) k =
    match k with
    | 1%nat => STLINK_BRIDGE_READ_SPI
    | 2%nat => uint8 n
    | 3%nat => uint8 (Z.shiftr n 8)
    | _ => cell command k
    end.
Proof.
  intros Hlen. unfold read_command.
  destruct k as [|[|[|[|k]]]];
    repeat first [rewrite cell_insert_eq by (rewrite ?length_insert; lia)
                 | rewrite cell_insert_ne by lia];
    reflexivity.
Qed.

Lemma length_field_wraps (n : Z) :
  uint8 n + 2 ^ 8 * uint8 (Z.shiftr n 8) = n mod 2 ^ 16.
Proof.
  unfold uint8. rewrite Z.shiftr_div_pow2 by lia.
  change (2 ^ 8) with 256. change (2 ^ 16) with 65536.
  Z.div_mod_to_equations. lia.
Qed.

Lemma write_command_frame_length n write_arr :
  frame_length (write_command n write_arr) = n mod 2 ^ 16.
Proof.
  unfold frame_length. rewrite !write_command_cell.
  rewrite !decide_False by (cbn; lia). apply length_field_wraps.
Qed.

Lemma read_command_frame_length n command :
  length command = 16%nat ->
  frame_length (read_command n command) = n mod 2 ^ 16.
Proof.
  intros Hlen. unfold frame_length. rewrite !read_command_cell by done.
  apply length_field_wraps.
Qed.

(** C9. The length field of the write frame and of the read frame is the
    requested count modulo 2^16, so it is the count itself exactly when the
    count is at most 65535; [spi_programmer_stlinkv3] announces that bound as
    [max_data_read] and [max_data_write], and every count within the
    announced bound is encoded exactly. *)
Theorem length_field_faithful_iff {D : Type} `{UsbDevice D}
    (cnt write_cnt : Z) (write_arr : list Z) :
  0 <= cnt < 2 ^ 32 ->
  let write_frame := write_command cnt write_arr in
  let read_frame := read_command cnt (write_command write_cnt write_arr) in
  frame_length write_frame = cnt mod 2 ^ 16 /\
  frame_length read_frame = cnt mod 2 ^ 16 /\
  (frame_length write_frame = cnt <-> cnt <= 65535) /\
  (frame_length read_frame = cnt <-> cnt <= 65535) /\
  max_data_write (spi_programmer_stlinkv3 (D := D)) = 65535 /\
  max_data_read (spi_programmer_stlinkv3 (D := D)) = 65535 /\
  (cnt <= max_data_write (spi_programmer_stlinkv3 (D := D)) ->
   frame_length write_frame = cnt) /\
  (cnt <= max_data_read (spi_programmer_stlinkv3 (D := D)) ->
   frame_length read_frame = cnt).
Proof.
  intros Hcnt write_frame read_frame. subst write_frame read_frame.
  rewrite write_command_frame_length.
  rewrite read_command_frame_length by apply write_command_length.
  assert (Hiff : cnt mod 2 ^ 16 = cnt <-> cnt <= 65535).
  { split.
    - intros E. pose proof (Z.mod_pos_bound cnt (2 ^ 16)). lia.
    - intros Hle. apply Z.mod_small. lia. }
  cbn [max_data_write max_data_read spi_programmer_stlinkv3].
  unfold UINT16_MAX. tauto.
Qed.

(** ** Runs in which every transfer completes *)

Section CompleteRuns.
Context {D : Type} `{UsbDevice D}.

Lemma bind_run {A B} (m : M A) (f : A -> M B) (d d' : D) r tr :
  bind m f d = (r, d', tr) ->
  is_done (m d).1.1 = true ->
  exists a d1 t1 t2,
    m d = (Done a, d1, t1) /\ f a d1 = (r, d', t2) /\ tr = t1 ++ t2.
Proof.
  unfold bind. destruct (m d) as [[[a|] d1] t1]; [|discriminate].
  destruct (f a d1) as [[r2 d2] t2] eqn:Hf. intros [= <- <- <-] _.
  by exists a, d1, t1, t2.
Qed.

Lemma bind_transfer_ok {B} ep data len (f : completion -> M B) (d d' : D) r tr :
  bind (libusb_bulk_transfer ep data len) f d = (r, d', tr) ->
  Forall event_ok tr ->
  exists c d1 t2,
    rc c = LIBUSB_TRANSFER_COMPLETED /\ actualLength c = len /\
    f c d1 = (r, d', t2) /\ Forall event_ok t2 /\
    tr = (Transfer ep data len USB_TIMEOUT, c) :: t2.
Proof.
  unfold bind, libusb_bulk_transfer. destruct (usb_bulk d _) as [c d1].
  destruct (f c d1) as [[r2 d2] t2] eqn:Hf. intros [= <- <- <-] Hok.
  apply Forall_cons in Hok as [[Hrc Hlen] Hok]. by exists c, d1, t2.
Qed.

Lemma failed_false c n :
  rc c = LIBUSB_TRANSFER_COMPLETED -> actualLength c = n -> failed c n = false.
Proof. unfold failed. intros -> ->. by rewrite !Z.eqb_refl. Qed.

Lemma uint32_int32 n : 0 <= n < 2 ^ 32 -> uint32 (int32 n) = n.
Proof.
  unfold uint32, int32. change (2 ^ 32) with 4294967296.
  change (2 ^ 31) with 2147483648. intros Hn.
  Z.div_mod_to_equations. lia.
Qed.

Lemma failed_u_false c n :
  0 <= n < 2 ^ 32 ->
  rc c = LIBUSB_TRANSFER_COMPLETED -> actualLength c = int32 n ->
  failed_u c n = false.
Proof.
  unfold failed_u. intros Hn -> ->. by rewrite uint32_int32, !Z.eqb_refl.
Qed.

Lemma sent_app t1 t2 : sent (t1 ++ t2) = sent t1 ++ sent t2.
Proof.
  induction t1 as [|[t c] t1 IH]; [reflexivity|]. simpl.
  destruct (endpoint t =? STLINK_EP_OUT); simpl; by rewrite IH.
Qed.

(** Two runs that meet at an OUT transfer do not share a status exchange. *)
Lemma status_polls_app t1 t2 :
  starts_out t2 -> status_polls (t1 ++ t2) = status_polls t1 ++ status_polls t2.
Proof.
  intros Hout. induction t1 as [|[ta ca] t1 IH]; [reflexivity|].
  destruct t1 as [|[tb cb] t1].
  - destruct t2 as [|[tb cb] t2]; [contradiction|]. simpl in Hout.
    cbn [app status_polls]. rewrite Hout.
    by rewrite andb_false_r.
  - cbn [app status_polls] in IH |- *.
    destruct (_ && _); by rewrite IH.
Qed.

Lemma set_SPI_NSS_ok lvl (d d' : D) r tr :
  stlinkv3_spi_set_SPI_NSS lvl d = (r, d', tr) ->
  Forall event_ok tr ->
  r = Done 0 /\ status_polls tr = [] /\ sent tr = [nss_command lvl] /\
  starts_out tr.
Proof.
  unfold stlinkv3_spi_set_SPI_NSS. intros Hrun Hok.
  apply bind_transfer_ok in Hrun as (c1 & d1 & t1 & Hrc & Hlen & Hrun & Hok1 & ->);
    [|done].
  rewrite failed_false in Hrun by done.
  apply bind_transfer_ok in Hrun as (c2 & d2 & t2 & Hrc2 & Hlen2 & Hrun & _ & ->);
    [|done].
  rewrite failed_false in Hrun by done.
  injection Hrun as <- <- <-. done.
Qed.

Lemma set_SPI_NSS_done lvl (d : D) :
  is_done (stlinkv3_spi_set_SPI_NSS lvl d).1.1 = true.
Proof.
  unfold stlinkv3_spi_set_SPI_NSS, bind, libusb_bulk_transfer, ret.
  destruct (usb_bulk d _) as [c1 d1]; destruct (failed c1 16); [reflexivity|].
  destruct (usb_bulk d1 _) as [c2 d2]; by destruct (failed c2 2).
Qed.

Lemma get_last_readwrite_status_done (d : D) :
  is_done (stlinkv3_get_last_readwrite_status d).1.1 = true.
Proof.
  unfold stlinkv3_get_last_readwrite_status, bind, libusb_bulk_transfer, ret.
  destruct (usb_bulk d _) as [c1 d1]; destruct (failed c1 16); [reflexivity|].
  destruct (usb_bulk d1 _) as [c2 d2]; by destruct (failed c2 8).
Qed.

Lemma bind_ok {A B} (m : M A) (f : A -> M B) (d d' : D) r tr :
  bind m f d = (r, d', tr) ->
  Forall event_ok tr ->
  is_done (m d).1.1 = true ->
  exists a d1 t1 t2,
    m d = (Done a, d1, t1) /\ Forall event_ok t1 /\
    f a d1 = (r, d', t2) /\ Forall event_ok t2 /\ tr = t1 ++ t2.
Proof.
  intros Hrun Hok Hdone.
  destruct (bind_run _ _ _ _ _ _ Hrun Hdone) as (a & d1 & t1 & t2 & Hm & Hf & ->).
  apply Forall_app in Hok as [Hok1 Hok2]. by exists a, d1, t1, t2.
Qed.

Lemma get_last_readwrite_status_ok (d d' : D) r tr :
  stlinkv3_get_last_readwrite_status d = (r, d', tr) ->
  Forall event_ok tr ->
  exists st, r = Done (Some st) /\ status_polls tr = [st] /\
             sent tr = [status_command] /\ starts_out tr.
Proof.
  unfold stlinkv3_get_last_readwrite_status. intros Hrun Hok.
  apply bind_transfer_ok in Hrun as (c1 & d1 & t1 & Hrc & Hlen & Hrun & Hok1 & ->);
    [|done].
  rewrite failed_false in Hrun by done.
  apply bind_transfer_ok in Hrun as (c2 & d2 & t2 & Hrc2 & Hlen2 & Hrun & _ & ->);
    [|done].
  rewrite failed_false in Hrun by done.
  injection Hrun as <- <- <-. eexists. done.
Qed.

Lemma transmit_err_ok read_arr (d d' : D) r tr :
  transmit_err read_arr d = (r, d', tr) ->
  Forall event_ok tr ->
  r = Done (-1, read_arr) /\ status_polls tr = [] /\
  sent tr = [nss_command SPI_NSS_HIGH] /\ starts_out tr.
Proof.
  unfold transmit_err. intros Hrun Hok.
  apply bind_ok in Hrun as (a & d1 & t1 & t2 & Hm & Hok1 & Hf & Hok2 & ->);
    [|done|apply set_SPI_NSS_done].
  apply set_SPI_NSS_ok in Hm as (_ & Hp & Hs & Ho); [|done].
  injection Hf as <- <- <-. by rewrite app_nil_r.
Qed.

Lemma starts_out_app t1 t2 : starts_out t1 -> starts_out (t1 ++ t2).
Proof. by destruct t1. Qed.

Lemma transmit_finish_ok read_arr (d d' : D) r tr :
  transmit_finish read_arr d = (r, d', tr) ->
  Forall event_ok tr ->
  exists st, r = Done (if st =? 0 then 0 else -1, read_arr) /\
             status_polls tr = [st] /\
             last (sent tr) = Some (nss_command SPI_NSS_HIGH) /\ starts_out tr.
Proof.
  unfold transmit_finish. intros Hrun Hok.
  apply bind_ok in Hrun as (a & d1 & t1 & t2 & Hm & Hok1 & Hf & Hok2 & ->);
    [|done|apply get_last_readwrite_status_done].
  apply get_last_readwrite_status_ok in Hm as (st & [= ->] & Hp & Hs & Ho); [|done].
  exists st. rewrite sent_app, Hs.
  destruct (Z.eqb_spec st 0) as [->|Hst]; cbn [negb] in Hf.
  - apply bind_ok in Hf as (a & d2 & t3 & t4 & Hm & Hok3 & Hf & _ & ->);
      [|done|apply set_SPI_NSS_done].
    apply set_SPI_NSS_ok in Hm as ([= ->] & Hp' & Hs' & Ho'); [|done].
    injection Hf as <- <- <-. rewrite app_nil_r.
    rewrite status_polls_app, Hp, Hp', Hs' by done.
    split_and!; [done..|by apply starts_out_app].
  - apply transmit_err_ok in Hf as (-> & Hp' & Hs' & Ho'); [|done].
    rewrite status_polls_app, Hp, Hp', Hs' by done.
    split_and!; [done..|by apply starts_out_app].
Qed.

Lemma read_command_not_status n command :
  length command = 16%nat -> read_command n command <> status_command.
Proof.
  intros Hlen E. pose proof (read_command_cell n command 1 Hlen) as Hop.
  rewrite E in Hop. discriminate Hop.
Qed.

Lemma transmit_read_ok read_cnt command read_arr (d d' : D) r tr :
  0 <= read_cnt < 2 ^ 32 ->
  length command = 16%nat ->
  transmit_read read_cnt command read_arr d = (r, d', tr) ->
  Forall event_ok tr ->
  exists st buf, r = Done (if st =? 0 then 0 else -1, buf) /\
                 status_polls tr = [st] /\
                 last (sent tr) = Some (nss_command SPI_NSS_HIGH) /\
                 starts_out tr.
Proof.
  unfold transmit_read. intros Hcnt Hlen Hrun Hok.
  destruct (read_cnt =? 0); cbn [negb] in Hrun.
  { apply transmit_finish_ok in Hrun as (st & ? & ? & ? & ?); [|done].
    by exists st, read_arr. }
  apply bind_transfer_ok in Hrun as (c1 & d1 & t1 & Hrc & Hact & Hrun & Hok1 & ->);
    [|done].
  rewrite failed_false in Hrun by done.
  apply bind_transfer_ok in Hrun as (c2 & d2 & t2 & Hrc2 & Hact2 & Hrun & Hok2 & ->);
    [|done].
  cbv zeta in Hrun. rewrite failed_u_false in Hrun by done.
  apply transmit_finish_ok in Hrun as (st & -> & Hp & Hs & Ho); [|done].
  exists st, (deliver read_arr (received c2)).
  split; [done|]. split; [|split; [|done]].
  - change (status_polls (?a :: ?b :: t2)) with (status_polls ([a; b] ++ t2)).
    rewrite (status_polls_app [_; _] t2 Ho), Hp. cbn [status_polls].
    rewrite bool_decide_false by (by apply read_command_not_status).
    by rewrite andb_false_r.
  - cbn. rewrite last_cons, Hs. done.
Qed.

Lemma transmit_after_write_ok read_cnt command read_arr (d d' : D) r tr :
  0 <= read_cnt < 2 ^ 32 ->
  length command = 16%nat ->
  transmit_after_write read_cnt command read_arr d = (r, d', tr) ->
  Forall event_ok tr ->
  exists ret buf sts,
    r = Done (ret, buf) /\ status_polls tr = sts /\
    (sts = [0; 0] /\ ret = 0 \/
     (exists st, st <> 0 /\ (sts = [st] \/ sts = [0; st])) /\ ret = -1) /\
    last (sent tr) = Some (nss_command SPI_NSS_HIGH) /\ starts_out tr.
Proof.
  unfold transmit_after_write. intros Hcnt Hlen Hrun Hok.
  apply bind_ok in Hrun as (a & d1 & t1 & t2 & Hm & Hok1 & Hf & Hok2 & ->);
    [|done|apply get_last_readwrite_status_done].
  apply get_last_readwrite_status_ok in Hm as (st & [= ->] & Hp & Hs & Ho); [|done].
  rewrite sent_app, Hs.
  destruct (Z.eqb_spec st 0) as [->|Hst]; cbn [negb] in Hf.
  - apply transmit_read_ok in Hf as (st2 & buf & -> & Hp' & Hs' & Ho'); [|done..].
    rewrite status_polls_app, Hp, Hp' by done.
    eexists _, buf, _. split; [done|]. split; [done|].
    split; [|split; [by rewrite last_app, Hs' | by apply starts_out_app]].
    destruct (Z.eqb_spec st2 0) as [->|Hst2]; [by left|right].
    split; [|done]. exists st2. split; [done|by right].
  - apply transmit_err_ok in Hf as (-> & Hp' & Hs' & Ho'); [|done].
    rewrite status_polls_app, Hp, Hp', Hs' by done.
    eexists _, read_arr, _. split; [done|]. split; [done|].
    split; [|split; [done | by apply starts_out_app]].
    right. split; [|done]. exists st. split; [done|by left].
Qed.

Lemma transmit_conclude (pre t : list event) (ret : Z) (sts : list Z) frame :
  status_polls pre = [] ->
  starts_out t ->
  status_polls t = sts ->
  (sts = [0; 0] /\ ret = 0 \/
   (exists st, st <> 0 /\ (sts = [st] \/ sts = [0; st])) /\ ret = -1) ->
  last (sent t) = Some frame ->
  (ret = 0 <-> status_polls (pre ++ t) = [0; 0]) /\
  ((exists st, In st (status_polls (pre ++ t)) /\ st <> 0) -> ret = -1) /\
  last (sent (pre ++ t)) = Some frame.
Proof.
  intros Hpre Hout Hsts Hcases Hlast.
  rewrite status_polls_app, Hpre, Hsts, sent_app, last_app, Hlast by done.
  cbn [app]. split; [|split; [|done]].
  - destruct Hcases as [[-> ->] | [(st & Hst & [-> | ->]) ->]]; split;
      (done || congruence).
  - intros (st & Hin & Hst).
    destruct Hcases as [[-> ->] | [_ ->]]; [|done].
    cbn in Hin. intuition congruence.
Qed.

(** The result against the status words of a run in which every bulk
    transfer is reported complete with the requested length: 0 exactly when
    the status words are two zeros, -1 after a nonzero one, and chip-select
    High as the last frame written. *)
Lemma transmit_complete_run_polls (write_cnt read_cnt : Z)
    (write_arr read_arr : list Z) (d d' : D) r tr :
  0 <= write_cnt < 2 ^ 32 ->
  0 <= read_cnt < 2 ^ 32 ->
  stlinkv3_spi_transmit write_cnt read_cnt write_arr read_arr d = (r, d', tr) ->
  Forall event_ok tr ->
  exists ret buf,
    r = Done (ret, buf) /\
    (ret = 0 <-> status_polls tr = [0; 0]) /\
    ((exists st, In st (status_polls tr) /\ st <> 0) -> ret = -1) /\
    last (sent tr) = Some (nss_command SPI_NSS_HIGH).
Proof.
  unfold stlinkv3_spi_transmit. intros Hw Hr Hrun Hok.
  apply bind_ok in Hrun as (a & d1 & t1 & t2 & Hm & Hok1 & Hf & Hok2 & ->);
    [|done|apply set_SPI_NSS_done].
  apply set_SPI_NSS_ok in Hm as ([= ->] & Hp & Hs & Ho); [|done].
  cbn [negb Z.eqb] in Hf. cbv zeta in Hf.
  apply bind_transfer_ok in Hf as (c1 & d2 & t3 & Hrc & Hact & Hf & Hok3 & ->);
    [|done].
  rewrite failed_false in Hf by done.
  destruct (8 <? write_cnt) eqn:Hlong.
  - apply bind_transfer_ok in Hf as (c2 & d3 & t4 & Hrc2 & Hact2 & Hf & Hok4 & ->);
      [|done].
    rewrite failed_u_false in Hf by (done || (apply Z.ltb_lt in Hlong; lia)).
    apply transmit_after_write_ok in Hf
      as (ret & buf & sts & -> & Hsts & Hcases & Hlast & Hout);
      [|done|apply write_command_length|done].
    exists ret, buf. split; [done|].
    change (t1 ++ ?x :: ?y :: t4) with (t1 ++ [x; y] ++ t4).
    rewrite app_assoc. apply (transmit_conclude _ _ _ sts); try done.
    by rewrite status_polls_app, Hp.
  - apply transmit_after_write_ok in Hf
      as (ret & buf & sts & -> & Hsts & Hcases & Hlast & Hout);
      [|done|apply write_command_length|done].
    exists ret, buf. split; [done|].
    change (t1 ++ ?x :: t3) with (t1 ++ [x] ++ t3).
    rewrite app_assoc. apply (transmit_conclude _ _ _ sts); try done.
    by rewrite status_polls_app, Hp.
Qed.

End CompleteRuns.

(** ** The write phase of a transaction *)

Section WritePhase.
Context {D : Type} `{UsbDevice D}.

Lemma set_SPI_NSS_shape lvl (d d' : D) r tr :
  stlinkv3_spi_set_SPI_NSS lvl d = (r, d', tr) ->
  (exists c1, tr = [(out_frame (nss_command lvl), c1)] /\
              failed c1 16 = true /\ r = Done (-1)) \/
  (exists c1 c2, tr = [(out_frame (nss_command lvl), c1); (in_frame 2, c2)] /\
                 failed c1 16 = false /\
                 r = Done (if failed c2 2 then -1 else 0)).
Proof.
  unfold stlinkv3_spi_set_SPI_NSS, bind, libusb_bulk_transfer, ret.
  destruct (usb_bulk d _) as [c1 d1]. destruct (failed c1 16) eqn:Hc1.
  - intros [= <- <- <-]. left. by exists c1.
  - destruct (usb_bulk d1 _) as [c2 d2].
    destruct (failed c2 2) eqn:Hc2; intros [= <- <- <-]; right; exists c1, c2;
      rewrite Hc2; done.
Qed.

Lemma event_ok_failed ep data n t c :
  event_ok (Transfer ep data n t, c) -> failed c n = false.
Proof. intros [Hrc Hlen]. by apply failed_false. Qed.

Lemma bind_head {A B} (m : M A) (f : A -> M B) (d : D) e :
  (exists t, (m d).2 = e :: t) -> exists t, (bind m f d).2 = e :: t.
Proof.
  unfold bind. destruct (m d) as [[[a|] d1] t1]; cbn [snd]; intros [t ->].
  - destruct (f a d1) as [[r2 d2] t2]. by exists (t ++ t2).
  - by exists t.
Qed.

Lemma bulk_transfer_head ep data len (d : D) :
  exists c, (libusb_bulk_transfer ep data len d).2 =
              [(Transfer ep data len USB_TIMEOUT, c)].
Proof.
  unfold libusb_bulk_transfer. destruct (usb_bulk d _) as [c d1]. by exists c.
Qed.

Lemma transmit_err_head read_arr (d : D) :
  exists c rest,
    (transmit_err read_arr d).2 = (out_frame (nss_command SPI_NSS_HIGH), c) :: rest.
Proof.
  destruct (bulk_transfer_head STLINK_EP_OUT (nss_command SPI_NSS_HIGH) 16 d)
    as [c Hc].
  exists c. unfold transmit_err, stlinkv3_spi_set_SPI_NSS.
  apply bind_head, bind_head. by exists [].
Qed.

Lemma transmit_after_write_head read_cnt command read_arr (d : D) :
  exists c rest,
    (transmit_after_write read_cnt command read_arr d).2 =
      (out_frame status_command, c) :: rest.
Proof.
  destruct (bulk_transfer_head STLINK_EP_OUT status_command 16 d) as [c Hc].
  exists c. unfold transmit_after_write, stlinkv3_get_last_readwrite_status.
  apply bind_head, bind_head. by exists [].
Qed.

Lemma int32_small n : 0 <= n < 2 ^ 31 -> int32 n = n.
Proof.
  unfold int32. change (2 ^ 32) with 4294967296.
  change (2 ^ 31) with 2147483648. intros Hn.
  Z.div_mod_to_equations. lia.
Qed.

(** C7. For a payload of [n] bytes and a run in which the chip-select assert
    completed, the third transfer is the 16-byte write frame: opcode
    STLINK_BRIDGE_WRITE_SPI, byte 2 the low and byte 3 the high byte of [n],
    bytes 4 onward the first [min n 8] payload bytes.  When [n <= 8] the next
    transfer is a command frame (the status poll, or the chip-select release
    when the write frame failed), never a payload transfer; when [n > 8] and
    the write frame completed, the next transfer sends exactly the [n - 8]
    payload bytes [[8, n)]. *)
Theorem transmit_write_frames (write_arr read_arr : list Z) (read_cnt : Z)
    (d d' : D) r tr :
  let n := Z.of_nat (length write_arr) in
  n < 2 ^ 31 ->
  stlinkv3_spi_transmit n read_cnt write_arr read_arr d = (r, d', tr) ->
  Forall event_ok (take 2 tr) ->
  let frame := write_command n write_arr in
  exists c1 c2 c3 rest,
    tr = (out_frame (nss_command SPI_NSS_LOW), c1) :: (in_frame 2, c2)
         :: (out_frame frame, c3) :: rest /\
    length frame = 16%nat /\
    cell frame 0 = STLINK_BRIDGE_COMMAND /\
    cell frame 1 = STLINK_BRIDGE_WRITE_SPI /\
    cell frame 2 = n mod 2 ^ 8 /\
    cell frame 3 = (n / 2 ^ 8) mod 2 ^ 8 /\
    (n <= 65535 -> frame_length frame = n) /\
    (forall k : nat, Z.of_nat k < Z.min n 8 ->
                     cell frame (4 + k) = cell write_arr k) /\
    (n <= 8 ->
     exists c4 rest',
       rest = (out_frame status_command, c4) :: rest' \/
       failed c3 16 = true /\
       rest = (out_frame (nss_command SPI_NSS_HIGH), c4) :: rest') /\
    (8 < n -> event_ok (out_frame frame, c3) ->
     exists c4 rest',
       rest = (Transfer STLINK_EP_OUT (drop 8 write_arr) (n - 8) USB_TIMEOUT, c4)
              :: rest' /\
       Z.of_nat (length (drop 8 write_arr)) = n - 8 /\
       forall k : nat, cell (drop 8 write_arr) k = cell write_arr (8 + k)).
Proof.
  intros n Hn Hrun Hok frame. unfold stlinkv3_spi_transmit in Hrun.
  apply bind_run in Hrun as (a & d1 & t1 & t2 & Hm & Hf & ->);
    [|apply set_SPI_NSS_done].
  apply set_SPI_NSS_shape in Hm
    as [(c1 & -> & Hfail & [= ->]) | (c1 & c2 & -> & Hc1 & [= ->])].
  { cbn in Hok. apply Forall_cons in Hok as [Hok _].
    apply event_ok_failed in Hok. congruence. }
  cbn [app take] in Hok.
  apply Forall_cons in Hok as [_ Hok]. apply Forall_cons in Hok as [Hok _].
  apply event_ok_failed in Hok. change (Z.of_nat 2) with 2 in Hok.
  rewrite Hok in Hf. cbn [negb Z.eqb] in Hf. cbv zeta in Hf. fold n frame in Hf.
  unfold bind at 1, libusb_bulk_transfer at 1 in Hf.
  destruct (usb_bulk d1 _) as [c3 d2].
  match type of Hf with
  | match ?k with _ => _ end = _ => destruct k as [[r2 d3] t3] eqn:Hrest
  end.
  injection Hf as <- <- <-.
  exists c1, c2, c3, t3. split; [reflexivity|].
  split; [apply write_command_length|].
  unfold frame. rewrite !write_command_cell.
  rewrite !decide_False by (cbn; lia).
  split; [reflexivity|]. split; [reflexivity|]. split; [reflexivity|].
  split; [cbn [cell lookup list_lookup default]; unfold uint8;
          by rewrite Z.shiftr_div_pow2 by lia|].
  split.
  { intros Hsmall. rewrite write_command_frame_length. apply Z.mod_small. lia. }
  split.
  { intros k Hk. rewrite write_command_cell, decide_True by lia.
    f_equal. lia. }
  split.
  - intros Hshort. destruct (failed c3 16) eqn:Hc3.
    + destruct (transmit_err_head read_arr d2) as (c4 & rest' & Hhead).
      rewrite Hrest in Hhead. exists c4, rest'. by right.
    + destruct (Z.ltb_spec 8 n); [lia|].
      destruct (transmit_after_write_head read_cnt frame read_arr d2)
        as (c4 & rest' & Hhead).
      fold frame in Hrest. rewrite Hrest in Hhead. exists c4, rest'. by left.
  - intros Hlong Hok3. apply event_ok_failed in Hok3. rewrite Hok3 in Hrest.
    destruct (Z.ltb_spec 8 n); [|lia].
    rewrite int32_small in Hrest by lia.
    destruct (bulk_transfer_head STLINK_EP_OUT (drop 8 write_arr) (n - 8) d2)
      as [c4 Hc4].
    match type of Hrest with
    | ?run = _ =>
        assert (exists t, run.2 = (Transfer STLINK_EP_OUT (drop 8 write_arr)
                                     (n - 8) USB_TIMEOUT, c4) :: t)
          as [rest' Hhead] by (apply bind_head; by exists [])
    end.
    rewrite Hrest in Hhead.
    exists c4, rest'. split; [exact Hhead|]. split.
    + rewrite length_drop. lia.
    + intros k. unfold cell. by rewrite lookup_drop.
Qed.

End WritePhase.

(** ** Chip-select release on the exit paths *)

Section Release.
Context {D : Type} `{UsbDevice D}.

Lemma bind_transfer_run {B} ep data len (f : completion -> M B) (d d' : D) r tr :
  bind (libusb_bulk_transfer ep data len) f d = (r, d', tr) ->
  exists c d1 t2,
    f c d1 = (r, d', t2) /\ tr = (Transfer ep data len USB_TIMEOUT, c) :: t2.
Proof.
  unfold bind, libusb_bulk_transfer. destruct (usb_bulk d _) as [c d1].
  destruct (f c d1) as [[r2 d2] t2] eqn:Hf. intros [= <- <- <-].
  by exists c, d1, t2.
Qed.

Lemma set_SPI_NSS_sent lvl (d d' : D) r tr :
  stlinkv3_spi_set_SPI_NSS lvl d = (r, d', tr) -> sent tr = [nss_command lvl].
Proof.
  intros Hrun.
  by apply set_SPI_NSS_shape in Hrun as [(c1 & -> & _) | (c1 & c2 & -> & _)].
Qed.

Lemma get_last_readwrite_status_sent (d d' : D) r tr :
  stlinkv3_get_last_readwrite_status d = (r, d', tr) -> sent tr = [status_command].
Proof.
  unfold stlinkv3_get_last_readwrite_status. intros Hrun.
  apply bind_transfer_run in Hrun as (c1 & d1 & t1 & Hrun & ->).
  destruct (failed c1 16); [by injection Hrun as <- <- <-|].
  apply bind_transfer_run in Hrun as (c2 & d2 & t2 & Hrun & ->).
  by destruct (failed c2 8); injection Hrun as <- <- <-.
Qed.

Lemma transmit_err_release read_arr (d d' : D) r tr :
  transmit_err read_arr d = (r, d', tr) ->
  r = Done (-1, read_arr) /\ last (sent tr) = Some (nss_command SPI_NSS_HIGH).
Proof.
  unfold transmit_err. intros Hrun.
  apply bind_run in Hrun as (a & d1 & t1 & t2 & Hm & Hf & ->);
    [|apply set_SPI_NSS_done].
  apply set_SPI_NSS_sent in Hm. injection Hf as <- <- <-.
  by rewrite app_nil_r, Hm.
Qed.

Lemma transmit_finish_release read_arr (d d' : D) r tr :
  transmit_finish read_arr d = (r, d', tr) ->
  last (sent tr) = Some (nss_command SPI_NSS_HIGH).
Proof.
  unfold transmit_finish. intros Hrun.
  apply bind_run in Hrun as (st & d1 & t1 & t2 & Hm & Hf & ->);
    [|apply get_last_readwrite_status_done].
  rewrite sent_app, last_app.
  assert (last (sent t2) = Some (nss_command SPI_NSS_HIGH)) as ->; [|done].
  destruct st as [rw_status|]; [destruct (negb (rw_status =? 0))|];
    try by apply transmit_err_release in Hf as [_ ?].
  apply bind_run in Hf as (a & d2 & t3 & t4 & Hm' & Hf & ->);
    [|apply set_SPI_NSS_done].
  apply set_SPI_NSS_sent in Hm'.
  by destruct (negb (a =? 0)); injection Hf as <- <- <-; rewrite app_nil_r, Hm'.
Qed.

Lemma transmit_read_release read_cnt command read_arr (d d' : D) r tr :
  transmit_read read_cnt command read_arr d = (r, d', tr) ->
  last (sent tr) = Some (nss_command SPI_NSS_HIGH).
Proof.
  unfold transmit_read. intros Hrun.
  destruct (negb (read_cnt =? 0)); [|by apply transmit_finish_release in Hrun].
  apply bind_transfer_run in Hrun as (c1 & d1 & t1 & Hrun & ->).
  change ((?x :: t1)) with ([x] ++ t1). rewrite sent_app, last_app.
  assert (last (sent t1) = Some (nss_command SPI_NSS_HIGH)) as ->; [|done].
  destruct (failed c1 16); [by apply transmit_err_release in Hrun as [_ ?]|].
  apply bind_transfer_run in Hrun as (c2 & d2 & t2 & Hrun & ->).
  change ((?x :: t2)) with ([x] ++ t2). rewrite sent_app, last_app.
  assert (last (sent t2) = Some (nss_command SPI_NSS_HIGH)) as ->; [|done].
  cbv zeta in Hrun. destruct (failed_u c2 read_cnt).
  - by apply transmit_err_release in Hrun as [_ ?].
  - by apply transmit_finish_release in Hrun.
Qed.

Lemma transmit_after_write_release read_cnt command read_arr (d d' : D) r tr :
  transmit_after_write read_cnt command read_arr d = (r, d', tr) ->
  last (sent tr) = Some (nss_command SPI_NSS_HIGH) \/
  r = Done (-1, read_arr) /\ sent tr = [status_command] /\
  stlinkv3_get_last_readwrite_status d = (Done None, d', tr).
Proof.
  unfold transmit_after_write. intros Hrun.
  apply bind_run in Hrun as (st & d1 & t1 & t2 & Hm & Hf & ->);
    [|apply get_last_readwrite_status_done].
  destruct st as [rw_status|].
  - left. rewrite sent_app, last_app.
    assert (last (sent t2) = Some (nss_command SPI_NSS_HIGH)) as ->; [|done].
    destruct (negb (rw_status =? 0)).
    + by apply transmit_err_release in Hf as [_ ?].
    + by apply transmit_read_release in Hf.
  - right. injection Hf as <- <- <-. rewrite app_nil_r.
    split; [done|]. split; [|done]. by apply get_last_readwrite_status_sent in Hm.
Qed.

(** X15. Every exit path of [stlinkv3_spi_transmit] but two ends with the
    chip-select command for level High as the last frame written: the one
    that never got chip-select low, and the one where the status poll after
    the write phase fails as a transfer. *)
Lemma transmit_release (write_cnt read_cnt : Z) (write_arr read_arr : list Z)
    (d d' : D) r tr :
  stlinkv3_spi_transmit write_cnt read_cnt write_arr read_arr d = (r, d', tr) ->
  r = Done (-1, read_arr) /\ sent tr = [nss_command SPI_NSS_LOW] \/
  last (sent tr) = Some (nss_command SPI_NSS_HIGH) \/
  r = Done (-1, read_arr) /\ last (sent tr) = Some status_command /\
  exists d1 t1 t2, tr = t1 ++ t2 /\
    stlinkv3_get_last_readwrite_status d1 = (Done None, d', t2).
Proof.
  unfold stlinkv3_spi_transmit. intros Hrun.
  apply bind_run in Hrun as (a & d1 & t1 & t2 & Hm & Hf & ->);
    [|apply set_SPI_NSS_done].
  apply set_SPI_NSS_sent in Hm.
  destruct (negb (a =? 0)).
  { left. injection Hf as <- <- <-. by rewrite app_nil_r. }
  right. cbv zeta in Hf.
  apply bind_transfer_run in Hf as (c1 & d2 & t3 & Hf & ->).
  assert (Haw : forall d3 t4,
    transmit_after_write read_cnt (write_command write_cnt write_arr) read_arr d3
      = (r, d', t4) ->
    forall pre, 
    last (sent (pre ++ t4)) = Some (nss_command SPI_NSS_HIGH) \/
    r = Done (-1, read_arr) /\ last (sent (pre ++ t4)) = Some status_command /\
    exists d1 t1 t2, pre ++ t4 = t1 ++ t2 /\
      stlinkv3_get_last_readwrite_status d1 = (Done None, d', t2)).
  { intros d3 t4 Hrun pre. rewrite sent_app, last_app.
    apply transmit_after_write_release in Hrun as [-> | (-> & -> & Hpoll)].
    - by left.
    - right. split; [done|]. split; [done|]. by exists d3, pre, t4. }
  assert (Herr : forall d3 t4 pre,
    transmit_err read_arr d3 = (r, d', t4) ->
    last (sent (pre ++ t4)) = Some (nss_command SPI_NSS_HIGH)).
  { intros d3 t4 pre Hrun. apply transmit_err_release in Hrun as [_ Hlast].
    by rewrite sent_app, last_app, Hlast. }
  destruct (failed c1 16).
  { left. change (t1 ++ ?e :: t3) with (t1 ++ [e] ++ t3).
    rewrite app_assoc. by apply (Herr d2). }
  destruct (8 <? write_cnt).
  - apply bind_transfer_run in Hf as (c2 & d3 & t4 & Hf & ->).
    change (t1 ++ ?e :: ?e' :: t4) with (t1 ++ [e; e'] ++ t4).
    rewrite app_assoc. destruct (failed_u c2 (write_cnt - 8)).
    + left. by apply (Herr d3).
    + by apply (Haw d3).
  - change (t1 ++ ?e :: t3) with (t1 ++ [e] ++ t3).
    rewrite app_assoc. by apply (Haw d2).
Qed.

End Release.

(** ** Opening a session *)

Section Session.
Context {D : Type} `{UsbDevice D}.

Lemma check_version_run (v : Z) (d d1 d2 : D) (c1 c2 : completion) :
  usb_bulk d (out_frame version_command) = (c1, d1) ->
  failed c1 16 = false ->
  usb_bulk d1 (in_frame 12) = (c2, d2) ->
  failed c2 12 = false ->
  cell (deliver (zeroed 12) (received c2)) 4 = v ->
  stlinkv3_check_version d =
    (Done (Some (if 3 <=? v then FW_VERSION_OK else FW_VERSION_OLD)), d2,
     [(out_frame version_command, c1); (in_frame 12, c2)]).
Proof.
  unfold out_frame, in_frame. change (Z.of_nat 12) with 12.
  intros H1 Hc1 H2 Hc2 <-.
  unfold stlinkv3_check_version, bind, libusb_bulk_transfer, ret.
  rewrite H1, Hc1, H2, Hc2. reflexivity.
Qed.

Lemma calc_prescaler_head (f : Z) (d : D) :
  exists c t,
    (stlinkv3_spi_calc_prescaler f d).2 = (out_frame get_clk_command, c) :: t.
Proof.
  destruct (bulk_transfer_head STLINK_EP_OUT get_clk_command 16 d) as [c Hc].
  exists c. unfold stlinkv3_spi_calc_prescaler, stlinkv3_get_clk.
  apply bind_head, bind_head. by exists [].
Qed.

(** C5. When the version query completes and the probe reports firmware
    version [v]: for [v < 3] [stlinkv3_spi_open] returns -1 after these two
    transfers, so the only frame written is the version query and no
    STLINK_BRIDGE_INIT_SPI frame goes out; for [v >= 3] the call goes on and
    its next transfer is the clock query of the prescaler computation. *)
Theorem open_version_gate (f v : Z) (d d1 d2 : D) (c1 c2 : completion) :
  usb_bulk d (out_frame version_command) = (c1, d1) ->
  failed c1 16 = false ->
  usb_bulk d1 (in_frame 12) = (c2, d2) ->
  failed c2 12 = false ->
  cell (deliver (zeroed 12) (received c2)) 4 = v ->
  let query := [(out_frame version_command, c1); (in_frame 12, c2)] in
  (v < 3 ->
   stlinkv3_spi_open f d = (Done (-1), d2, query) /\
   sent query = [version_command] /\
   forall p, ~ In (init_command p) (sent query)) /\
  (3 <= v ->
   exists c3 r d' rest,
     stlinkv3_spi_open f d =
       (r, d', query ++ (out_frame get_clk_command, c3) :: rest)).
Proof.
  intros H1 Hc1 H2 Hc2 Hv query.
  pose proof (check_version_run v d d1 d2 c1 c2 H1 Hc1 H2 Hc2 Hv) as Hver.
  fold query in Hver. split.
  - intros Hold. split; [|split; [reflexivity|]].
    + unfold stlinkv3_spi_open, bind. rewrite Hver.
      destruct (Z.leb_spec 3 v); [lia|]. reflexivity.
    + intros p [E|[]]. by destruct p.
  - intros Hnew. unfold stlinkv3_spi_open. unfold bind at 1. rewrite Hver.
    destruct (Z.leb_spec 3 v); [|lia].
    match goal with
    | |- context [match ?run with _ => _ end] =>
        assert (exists c3 t, run.2 = (out_frame get_clk_command, c3) :: t)
          as (c3 & t & Hhead)
          by (destruct (calc_prescaler_head f d2) as (c3 & t & Hc);
              exists c3; apply bind_head; by exists t);
        destruct run as [[r d'] t2]
    end.
    cbn [snd] in Hhead. subst t2. by exists c3, r, d', t.
Qed.

Lemma failed_true_iff c n :
  failed c n = true <->
  rc c <> LIBUSB_TRANSFER_COMPLETED \/ actualLength c <> n.
Proof.
  unfold failed.
  destruct (Z.eqb_spec (rc c) LIBUSB_TRANSFER_COMPLETED),
    (Z.eqb_spec (actualLength c) n); cbn; intuition congruence.
Qed.

(** The test after the STLINK_BRIDGE_INIT_SPI send needs both conditions. *)
Lemma init_send_failed_true_iff c :
  init_send_failed c = true <->
  rc c <> LIBUSB_TRANSFER_COMPLETED /\ actualLength c <> 16.
Proof.
  unfold init_send_failed.
  destruct (Z.eqb_spec (rc c) LIBUSB_TRANSFER_COMPLETED),
    (Z.eqb_spec (actualLength c) 16); cbn; intuition congruence.
Qed.

(** [stlinkv3_spi_shutdown] reports 0 whatever its two transfers did. *)
Lemma shutdown_returns_0 (d : D) : (stlinkv3_spi_shutdown d).1.1 = Done 0.
Proof.
  unfold stlinkv3_spi_shutdown, bind, libusb_bulk_transfer, ret.
  destruct (usb_bulk d _) as [c1 d1]. by destruct (usb_bulk d1 _) as [c2 d2].
Qed.

End Session.

(** ** Runs on scripted probes *)

(** C6, failing input. A probe with firmware 3 and a 48000 kHz clock answers
    the STLINK_BRIDGE_INIT_SPI send (the fifth transfer) with a short
    transfer of 7 bytes, or with LIBUSB_ERROR_TIMEOUT and a length of 16:
    either way [stlinkv3_spi_open] goes on to read the acknowledgement and
    returns 0, although the test used after every other transfer rejects both
    completions. *)
Theorem open_tolerates_failed_init_send :
  let short := Completion 0 7 [] in
  let timed_out := Completion (-7) 16 [] in
  let init := out_frame (init_command SPI_BAUDRATEPRESCALER_64) in
  (stlinkv3_spi_open 1000 (script_open 48000 short)).1.1 = Done 0 /\
  (stlinkv3_spi_open 1000 (script_open 48000 short)).2 !! 4%nat
    = Some (init, short) /\
  (stlinkv3_spi_open 1000 (script_open 48000 timed_out)).1.1 = Done 0 /\
  (stlinkv3_spi_open 1000 (script_open 48000 timed_out)).2 !! 4%nat
    = Some (init, timed_out) /\
  failed short 16 = true /\ failed timed_out 16 = true.
Proof. vm_compute. by repeat split. Qed.

(** C1, failing input. Chip-select goes low, the write frame for the one
    byte 0x9F goes out, and the OUT transfer of the status poll that follows
    times out: [stlinkv3_spi_transmit] returns -1 after having written the
    chip-select Low command, the write frame and the status command, and no
    chip-select High command. *)
Theorem transmit_leaves_chip_select_low :
  let run := stlinkv3_spi_transmit 1 3 [0x9F] [0; 0; 0] script_status_poll_timeout in
  Forall event_ok (take 2 run.2) /\
  run.1.1 = Done (-1, [0; 0; 0]) /\
  sent run.2 = [nss_command SPI_NSS_LOW; write_command 1 [0x9F]; status_command] /\
  ~ In (nss_command SPI_NSS_HIGH) (sent run.2).
Proof.
  vm_compute. split; [by repeat constructor|].
  split; [reflexivity|]. split; [reflexivity|].
  intros [E|[E|[E|[]]]]; discriminate E.
Qed.

(** ** Worked examples *)

(** 48000 kHz and a request of 1000 kHz: ratio 48, divisor 64, 750 kHz. *)
Example calc_prescaler_48000_1000 :
  (stlinkv3_spi_calc_prescaler 1000 (script_clk 48000)).1.1 =
    Done (Some (SPI_BAUDRATEPRESCALER_64, 750)).
Proof. reflexivity. Qed.

(** 48000 kHz and a request of 24000 kHz: ratio 2, divisor 2, 24000 kHz. *)
Example calc_prescaler_48000_24000 :
  (stlinkv3_spi_calc_prescaler 24000 (script_clk 48000)).1.1 =
    Done (Some (SPI_BAUDRATEPRESCALER_2, 24000)).
Proof. reflexivity. Qed.

(** Firmware 2: the open fails after the version query. *)
Example open_firmware_2 :
  let run := stlinkv3_spi_open 1000 [done_out 16; done_in (version_answer 2)] in
  run.1.1 = Done (-1) /\ sent run.2 = [version_command].
Proof. by vm_compute. Qed.

(** Firmware 3 and completed transfers: the open succeeds and the last frame
    written is the initialization command with the selected prescaler. *)
Example open_firmware_3 :
  let run := stlinkv3_spi_open 1000 (script_open 48000 (done_out 16)) in
  run.1.1 = Done 0 /\
  last (sent run.2) = Some (init_command SPI_BAUDRATEPRESCALER_64).
Proof. by vm_compute. Qed.

(** A read of the JEDEC id: three bytes come back and chip-select is
    released. *)
Example transmit_jedec_id :
  let run := stlinkv3_spi_transmit 1 3 [0x9F] [0; 0; 0]
               (script_transaction 0 0 [0xEF; 0x40; 0x18]) in
  run.1.1 = Done (0, [0xEF; 0x40; 0x18]) /\
  status_polls run.2 = [0; 0] /\
  last (sent run.2) = Some (nss_command SPI_NSS_HIGH).
Proof. by vm_compute. Qed.

(** The same transaction with a device-reported failure after the write. *)
Example transmit_status_error :
  let run := stlinkv3_spi_transmit 1 3 [0x9F] [0; 0; 0]
               [done_out 16; done_in ack; done_out 16;
                done_out 16; done_in (status_answer 2);
                done_out 16; done_in ack] in
  run.1.1 = Done (-1, [0; 0; 0]) /\
  status_polls run.2 = [2] /\
  last (sent run.2) = Some (nss_command SPI_NSS_HIGH).
Proof. by vm_compute. Qed.

(** [strtoul] on a few inputs (64-bit [unsigned long]). *)
Example strtoul_examples :
  strtoul (2 ^ 64 - 1) "1000" = (1000, EmptyString) /\
  strtoul (2 ^ 64 - 1) " 0x10" = (16, EmptyString) /\
  strtoul (2 ^ 64 - 1) "010" = (8, EmptyString) /\
  strtoul (2 ^ 64 - 1) "12kHz" = (12, "kHz"%string) /\
  strtoul (2 ^ 64 - 1) "" = (0, EmptyString) /\
  strtoul (2 ^ 64 - 1) "65536" = (65536, EmptyString).
Proof. by vm_compute. Qed.

(** C2, counterexample. A probe that reports 180000 kHz and a request of
    65535 kHz: the ratio is 2, the divisor 2, the quotient 90000, and the
    function hands back 24464. *)
Lemma calc_prescaler_quotient_wraps :
  stlinkv3_get_clk (script_clk 180000) = (Done (Some 180000), [], (stlinkv3_get_clk (script_clk 180000)).2) /\
  (stlinkv3_spi_calc_prescaler 65535 (script_clk 180000)).1.1 =
    Done (Some (SPI_BAUDRATEPRESCALER_2, 24464)) /\
  24464 <> 180000 / prescaler_divisor SPI_BAUDRATEPRESCALER_2.
Proof. vm_compute. repeat split; discriminate. Qed.

(** C3, failing input. A probe that reports 48000 kHz and a request of
    20000 kHz: the ratio 2 is within the divisor range, and the function
    hands back 24000 kHz, above the request. *)
Theorem calc_prescaler_exceeds_request :
  stlinkv3_get_clk (script_clk 48000) = (Done (Some 48000), [], (stlinkv3_get_clk (script_clk 48000)).2) /\
  48000 / 20000 <= 256 /\
  (stlinkv3_spi_calc_prescaler 20000 (script_clk 48000)).1.1 =
    Done (Some (SPI_BAUDRATEPRESCALER_2, 24000)) /\
  20000 < 24000.
Proof. vm_compute. repeat split; discriminate. Qed.

(** ** The theorems above at concrete probes *)

(** C2 at a probe that reports 48000 kHz, request 1000 kHz. *)
Lemma calc_prescaler_least_divisor_witness :
  let d := script_clk 48000 in
  let tr := (stlinkv3_get_clk d).2 in
  exists p,
    stlinkv3_spi_calc_prescaler 1000 d =
      (Done (Some (p, (48000 / prescaler_divisor p) mod 2 ^ 16)), [], tr) /\
    In p all_prescalers /\
    (48000 / 1000 <= 256 ->
     48000 / 1000 <= prescaler_divisor p /\
     forall q, 48000 / 1000 <= prescaler_divisor q ->
               prescaler_divisor p <= prescaler_divisor q) /\
    (256 < 48000 / 1000 -> prescaler_divisor p = 256) /\
    (48000 / prescaler_divisor p <= 65535 ->
     (48000 / prescaler_divisor p) mod 2 ^ 16 = 48000 / prescaler_divisor p).
Proof.
  apply (calc_prescaler_least_divisor 1000 48000 (script_clk 48000) []);
    [vm_compute; reflexivity | lia].
Defined.

(** C10 at a probe that reports 180000 kHz, request 65535 kHz: the quotient
    90000 comes back as 24464. *)
Lemma calc_prescaler_freq_truncated_witness :
  24464 = (180000 / prescaler_divisor SPI_BAUDRATEPRESCALER_2) mod 2 ^ 16 /\
  0 <= 24464 <= 65535 /\
  (24464 = 180000 / prescaler_divisor SPI_BAUDRATEPRESCALER_2 <->
   180000 / prescaler_divisor SPI_BAUDRATEPRESCALER_2 <= 65535).
Proof.
  apply (calc_prescaler_freq_truncated 65535 180000 24464 SPI_BAUDRATEPRESCALER_2
           (script_clk 180000) [] (stlinkv3_get_clk (script_clk 180000)).2);
    vm_compute; reflexivity.
Defined.

(** C8 at a probe with firmware 3 and a 48000 kHz clock, 64-bit
    [unsigned long]. *)
Lemma calc_prescaler_zero_request_witness :
  let d := [done_out 16; done_in (version_answer 3);
            done_out 16; done_in (clk_answer 48000)] in
  let tr1 := (stlinkv3_check_version d).2 in
  let tr2 := (stlinkv3_get_clk (script_clk 48000)).2 in
  stlinkv3_spi_calc_prescaler 0 (script_clk 48000) = (Undefined, [], tr2) /\
  (forall f (d0 : script),
     f <> 0 -> is_done (stlinkv3_spi_calc_prescaler f d0).1.1 = true) /\
  strtoul (2 ^ 64 - 1) "0" = (0, EmptyString) /\
  stlinkv3_spi_open 0 d = (Undefined, [], tr1 ++ tr2) /\
  stlinkv3_spi_init (2 ^ 64 - 1) true None true (Some "0"%string) 0 0 d =
    (Undefined, [], tr1 ++ tr2).
Proof.
  apply (calc_prescaler_zero_request (2 ^ 64 - 1) 48000 0 0 None
           [done_out 16; done_in (version_answer 3);
            done_out 16; done_in (clk_answer 48000)]
           (script_clk 48000) []);
    [lia | vm_compute; reflexivity | vm_compute; reflexivity].
Defined.

(** C9 at a count of 65541, one past the 16-bit range by 5. *)
Lemma length_field_faithful_iff_witness :
  let write_frame := write_command 65541 [0x9F] in
  let read_frame := read_command 65541 (write_command 1 [0x9F]) in
  frame_length write_frame = 65541 mod 2 ^ 16 /\
  frame_length read_frame = 65541 mod 2 ^ 16 /\
  (frame_length write_frame = 65541 <-> 65541 <= 65535) /\
  (frame_length read_frame = 65541 <-> 65541 <= 65535) /\
  max_data_write (spi_programmer_stlinkv3 (D := script)) = 65535 /\
  max_data_read (spi_programmer_stlinkv3 (D := script)) = 65535 /\
  (65541 <= max_data_write (spi_programmer_stlinkv3 (D := script)) ->
   frame_length write_frame = 65541) /\
  (65541 <= max_data_read (spi_programmer_stlinkv3 (D := script)) ->
   frame_length read_frame = 65541).
Proof.
  apply (length_field_faithful_iff (D := script) 65541 1 [0x9F]). lia.
Defined.

(** C7 at a payload of 10 bytes. *)
Lemma transmit_write_frames_witness :
  let write_arr := [1; 2; 3; 4; 5; 6; 7; 8; 9; 10] in
  let run := stlinkv3_spi_transmit 10 0 write_arr [] script_long_write in
  let frame := write_command 10 write_arr in
  exists c1 c2 c3 rest,
    run.2 = (out_frame (nss_command SPI_NSS_LOW), c1) :: (in_frame 2, c2)
            :: (out_frame frame, c3) :: rest /\
    length frame = 16%nat /\
    cell frame 0 = STLINK_BRIDGE_COMMAND /\
    cell frame 1 = STLINK_BRIDGE_WRITE_SPI /\
    cell frame 2 = 10 mod 2 ^ 8 /\
    cell frame 3 = (10 / 2 ^ 8) mod 2 ^ 8 /\
    (10 <= 65535 -> frame_length frame = 10) /\
    (forall k : nat, Z.of_nat k < Z.min 10 8 ->
                     cell frame (4 + k) = cell write_arr k) /\
    (10 <= 8 ->
     exists c4 rest',
       rest = (out_frame status_command, c4) :: rest' \/
       failed c3 16 = true /\
       rest = (out_frame (nss_command SPI_NSS_HIGH), c4) :: rest') /\
    (8 < 10 -> event_ok (out_frame frame, c3) ->
     exists c4 rest',
       rest = (Transfer STLINK_EP_OUT (drop 8 write_arr) (10 - 8) USB_TIMEOUT, c4)
              :: rest' /\
       Z.of_nat (length (drop 8 write_arr)) = 10 - 8 /\
       forall k : nat, cell (drop 8 write_arr) k = cell write_arr (8 + k)).
Proof.
  intros write_arr run frame.
  apply (transmit_write_frames write_arr [] 0 script_long_write run.1.2 run.1.1);
    [vm_compute; reflexivity | vm_compute; reflexivity |].
  vm_compute. repeat (constructor; [split; reflexivity|]). constructor.
Defined.

(** C5 at a probe with firmware 3. *)
Lemma open_version_gate_witness :
  let c1 := done_out 16 in
  let c2 := done_in (version_answer 3) in
  let d2 := [done_out 16; done_in (clk_answer 48000); done_out 16; done_in ack] in
  let query := [(out_frame version_command, c1); (in_frame 12, c2)] in
  (3 < 3 ->
   stlinkv3_spi_open 1000 (script_open 48000 (done_out 16)) = (Done (-1), d2, query) /\
   sent query = [version_command] /\
   forall p, ~ In (init_command p) (sent query)) /\
  (3 <= 3 ->
   exists c3 r d' rest,
     stlinkv3_spi_open 1000 (script_open 48000 (done_out 16)) =
       (r, d', query ++ (out_frame get_clk_command, c3) :: rest)).
Proof.
  apply (open_version_gate 1000 3 (script_open 48000 (done_out 16))
           [done_in (version_answer 3); done_out 16; done_in (clk_answer 48000);
            done_out 16; done_in ack]);
    reflexivity.
Defined.

(** * Further properties of the driver *)

(** ** The command/answer exchanges *)

Section Exchanges.
Context {D : Type} `{UsbDevice D}.

Lemma lor_shiftl_add (a b n : Z) :
  0 <= n -> 0 <= a < 2 ^ n -> Z.lor a (Z.shiftl b n) = a + b * 2 ^ n.
Proof.
  intros Hn Ha. rewrite <- Z.add_lor_land, Z.shiftl_mul_pow2 by done.
  rewrite <- (Z.shiftl_mul_pow2 b n) by done.
  assert (Z.land a (Z.shiftl b n) = 0) as ->; [|lia].
  apply Z.bits_inj'. intros m Hm. rewrite Z.land_spec, Z.bits_0.
  destruct (Z.lt_ge_cases m n).
  - by rewrite Z.shiftl_spec_low, andb_false_r.
  - rewrite <- (Z.mod_small a (2 ^ n)) by done.
    by rewrite Z.mod_pow2_bits_high.
Qed.

(** Four bytes combined the way [stlinkv3_get_clk] combines them. *)
Lemma le32_decode (b0 b1 b2 b3 : Z) :
  0 <= b0 < 256 -> 0 <= b1 < 256 -> 0 <= b2 < 256 -> 0 <= b3 < 256 ->
  uint32 (Z.lor (Z.lor (Z.lor b0 (Z.shiftl b1 8)) (Z.shiftl b2 16))
            (Z.shiftl b3 24))
  = b0 + 2 ^ 8 * b1 + 2 ^ 16 * b2 + 2 ^ 24 * b3.
Proof.
  intros H0 H1 H2 H3.
  rewrite (lor_shiftl_add b0 b1 8) by lia.
  rewrite (lor_shiftl_add _ b2 16) by lia.
  rewrite (lor_shiftl_add _ b3 24) by lia.
  unfold uint32. rewrite Z.mod_small; lia.
Qed.

Lemma cell_deliver_zeroed (n k : nat) (recv : list Z) :
  (k < n)%nat -> cell (deliver (zeroed n) recv) k = cell recv k.
Proof.
  intros Hk. unfold cell, deliver, zeroed.
  rewrite length_replicate, lookup_take_lt by done.
  destruct (decide (k < length recv)%nat) as [Hlt|Hge].
  - by rewrite lookup_app_l.
  - rewrite lookup_app_r, lookup_drop by lia.
    rewrite (lookup_ge_None_2 recv) by lia.
    by rewrite lookup_replicate_2 by lia.
Qed.

Lemma le32_digits (x : Z) :
  0 <= x < 2 ^ 32 ->
  x mod 2 ^ 8 + 2 ^ 8 * ((x / 2 ^ 8) mod 2 ^ 8)
  + 2 ^ 16 * ((x / 2 ^ 16) mod 2 ^ 8) + 2 ^ 24 * ((x / 2 ^ 24) mod 2 ^ 8) = x.
Proof.
  intros Hx. change (2 ^ 8) with 256. change (2 ^ 16) with 65536.
  change (2 ^ 24) with 16777216. change (2 ^ 32) with 4294967296 in Hx.
  Z.div_mod_to_equations. lia.
Qed.

(** X1. Round trip of the clock answer: when both transfers of
    [stlinkv3_get_clk] complete and bytes 4..7 of the answer are the
    little-endian bytes of [clk], the function yields [clk]. *)
Theorem get_clk_round_trip (clk : Z) (d d1 d2 : D) (c1 c2 : completion) :
  0 <= clk < 2 ^ 32 ->
  usb_bulk d (out_frame get_clk_command) = (c1, d1) ->
  failed c1 16 = false ->
  usb_bulk d1 (in_frame 12) = (c2, d2) ->
  failed c2 12 = false ->
  (forall i : nat, (i < 4)%nat ->
     cell (received c2) (4 + i) = (clk / 2 ^ (8 * Z.of_nat i)) mod 2 ^ 8) ->
  stlinkv3_get_clk d =
    (Done (Some clk), d2, [(out_frame get_clk_command, c1); (in_frame 12, c2)]).
Proof.
  unfold out_frame, in_frame. change (Z.of_nat 12) with 12.
  intros Hclk H1 Hc1 H2 Hc2 Hbytes.
  unfold stlinkv3_get_clk, bind, libusb_bulk_transfer, ret.
  rewrite H1, Hc1, H2, Hc2. cbn [app]. do 3 f_equal.
  rewrite !cell_deliver_zeroed by lia.
  pose proof (Hbytes 0%nat ltac:(lia)) as B0.
  pose proof (Hbytes 1%nat ltac:(lia)) as B1.
  pose proof (Hbytes 2%nat ltac:(lia)) as B2.
  pose proof (Hbytes 3%nat ltac:(lia)) as B3.
  cbn [Nat.add] in B0, B1, B2, B3.
  change (8 * Z.of_nat 0) with 0 in B0. change (8 * Z.of_nat 1) with 8 in B1.
  change (8 * Z.of_nat 2) with 16 in B2. change (8 * Z.of_nat 3) with 24 in B3.
  rewrite Z.pow_0_r, Z.div_1_r in B0. rewrite B0, B1, B2, B3.
  rewrite le32_decode by (apply Z.mod_pos_bound; lia).
  f_equal. by apply le32_digits.
Qed.

(** X2. Round trip of the status answer: when both transfers of
    [stlinkv3_get_last_readwrite_status] complete and bytes 4..7 of the
    8-byte answer are the little-endian bytes of [st], the function yields
    [st]; bytes 0..3 are ignored. *)
Theorem get_last_readwrite_status_round_trip (st : Z) (d d1 d2 : D)
    (c1 c2 : completion) :
  0 <= st < 2 ^ 32 ->
  usb_bulk d (out_frame status_command) = (c1, d1) ->
  failed c1 16 = false ->
  usb_bulk d1 (in_frame 8) = (c2, d2) ->
  failed c2 8 = false ->
  (forall i : nat, (i < 4)%nat ->
     cell (received c2) (4 + i) = (st / 2 ^ (8 * Z.of_nat i)) mod 2 ^ 8) ->
  stlinkv3_get_last_readwrite_status d =
    (Done (Some st), d2, [(out_frame status_command, c1); (in_frame 8, c2)]).
Proof.
  unfold out_frame, in_frame. change (Z.of_nat 8) with 8.
  intros Hst H1 Hc1 H2 Hc2 Hbytes.
  unfold stlinkv3_get_last_readwrite_status, bind, libusb_bulk_transfer, ret.
  rewrite H1, Hc1, H2, Hc2. cbn [app]. do 3 f_equal.
  unfold decode_status, cell16. cbn [Nat.mul Nat.add].
  rewrite !cell_deliver_zeroed by lia.
  pose proof (Hbytes 0%nat ltac:(lia)) as B0.
  pose proof (Hbytes 1%nat ltac:(lia)) as B1.
  pose proof (Hbytes 2%nat ltac:(lia)) as B2.
  pose proof (Hbytes 3%nat ltac:(lia)) as B3.
  cbn [Nat.add] in B0, B1, B2, B3.
  change (8 * Z.of_nat 0) with 0 in B0. change (8 * Z.of_nat 1) with 8 in B1.
  change (8 * Z.of_nat 2) with 16 in B2. change (8 * Z.of_nat 3) with 24 in B3.
  rewrite Z.pow_0_r, Z.div_1_r in B0. rewrite B0, B1, B2, B3.
  pose proof (Z.mod_pos_bound st (2 ^ 8)).
  pose proof (Z.mod_pos_bound (st / 2 ^ 8) (2 ^ 8)).
  pose proof (Z.mod_pos_bound (st / 2 ^ 16) (2 ^ 8)).
  pose proof (Z.mod_pos_bound (st / 2 ^ 24) (2 ^ 8)).
  rewrite (lor_shiftl_add (st mod 2 ^ 8) _ 8) by lia.
  rewrite (lor_shiftl_add ((st / 2 ^ 16) mod 2 ^ 8) _ 8) by lia.
  rewrite lor_shiftl_add by lia.
  pose proof (le32_digits st Hst).
  unfold uint32. rewrite Z.mod_small by lia. f_equal. lia.
Qed.

Ltac exchange_cases d :=
  unfold exchange_outcome, bind, libusb_bulk_transfer, ret;
  let c1 := fresh "c1" in let d1 := fresh "d1" in
  let c2 := fresh "c2" in let d2 := fresh "d2" in
  let Hc1 := fresh "Hc1" in let Hc2 := fresh "Hc2" in
  destruct (usb_bulk d _) as [c1 d1]; exists c1;
  destruct (failed c1 16) eqn:Hc1; [by left|];
  right; destruct (usb_bulk d1 _) as [c2 d2]; exists c2;
  destruct (failed c2 _) eqn:Hc2; cbn; rewrite ?Hc2; done.

(** X3. Each of the four command/answer helpers sends its frame first; when
    that transfer is not complete or short it gives up without reading, and
    otherwise it reads the answer and succeeds exactly when the read is
    complete with the full length.  No other transfer is issued. *)
Theorem exchanges_stop_at_first_failure (d : D) (NSS_level : SPI_NSS_Level_t) :
  exchange_outcome get_clk_command 12 (stlinkv3_get_clk d).2
    (returned_some (stlinkv3_get_clk d).1.1) /\
  exchange_outcome version_command 12 (stlinkv3_check_version d).2
    (returned_some (stlinkv3_check_version d).1.1) /\
  exchange_outcome status_command 8 (stlinkv3_get_last_readwrite_status d).2
    (returned_some (stlinkv3_get_last_readwrite_status d).1.1) /\
  exchange_outcome (nss_command NSS_level) 2
    (stlinkv3_spi_set_SPI_NSS NSS_level d).2
    (returned_zero (stlinkv3_spi_set_SPI_NSS NSS_level d).1.1).
Proof.
  split; [|split; [|split]].
  - unfold stlinkv3_get_clk. exchange_cases d.
  - unfold stlinkv3_check_version. exchange_cases d.
  - unfold stlinkv3_get_last_readwrite_status. exchange_cases d.
  - unfold stlinkv3_spi_set_SPI_NSS. exchange_cases d.
Qed.

End Exchanges.

(** ** Successful transactions *)

Section SuccessfulTransaction.
Context {D : Type} `{UsbDevice D}.

Lemma failed_false_inv c n :
  failed c n = false -> rc c = LIBUSB_TRANSFER_COMPLETED /\ actualLength c = n.
Proof.
  unfold failed.
  destruct (Z.eqb_spec (rc c) LIBUSB_TRANSFER_COMPLETED),
    (Z.eqb_spec (actualLength c) n); cbn; intuition congruence.
Qed.

Lemma failed_u_false_inv c n :
  failed_u c n = false ->
  rc c = LIBUSB_TRANSFER_COMPLETED /\ uint32 (actualLength c) = n.
Proof.
  unfold failed_u.
  destruct (Z.eqb_spec (rc c) LIBUSB_TRANSFER_COMPLETED),
    (Z.eqb_spec (uint32 (actualLength c)) n); cbn; intuition congruence.
Qed.

Lemma event_ok_accepted e : event_ok e -> accepted e.
Proof. intros [Hrc Hlen]. split; [done|by rewrite Hlen]. Qed.

Lemma map_fst_app (t1 t2 : list event) (l1 l2 : list transfer) :
  map fst t1 = l1 -> map fst t2 = l2 -> map fst (t1 ++ t2) = l1 ++ l2.
Proof. intros <- <-. apply List.map_app. Qed.

Lemma set_SPI_NSS_success lvl (d d' : D) tr :
  stlinkv3_spi_set_SPI_NSS lvl d = (Done 0, d', tr) ->
  map fst tr = [out_frame (nss_command lvl); in_frame 2] /\ Forall event_ok tr.
Proof.
  intros Hrun.
  apply set_SPI_NSS_shape in Hrun
    as [(c1 & _ & _ & [=]) | (c1 & c2 & -> & Hc1 & Hr)].
  destruct (failed c2 2) eqn:Hc2; [discriminate|].
  apply failed_false_inv in Hc1, Hc2. split; [done|].
  repeat (apply Forall_cons; split; [done|]). by apply Forall_nil.
Qed.

Lemma get_last_readwrite_status_success st (d d' : D) tr :
  stlinkv3_get_last_readwrite_status d = (Done (Some st), d', tr) ->
  map fst tr = [out_frame status_command; in_frame 8] /\ Forall event_ok tr.
Proof.
  unfold stlinkv3_get_last_readwrite_status. intros Hrun.
  apply bind_transfer_run in Hrun as (c1 & d1 & t1 & Hrun & ->).
  destruct (failed c1 16) eqn:Hc1; [discriminate|].
  apply bind_transfer_run in Hrun as (c2 & d2 & t2 & Hrun & ->).
  destruct (failed c2 8) eqn:Hc2; [discriminate|].
  injection Hrun as _ _ <-.
  apply failed_false_inv in Hc1, Hc2. split; [done|].
  repeat (apply Forall_cons; split; [done|]). by apply Forall_nil.
Qed.

Lemma transmit_finish_success read_arr buf (d d' : D) tr :
  transmit_finish read_arr d = (Done (0, buf), d', tr) ->
  buf = read_arr /\
  map fst tr = [out_frame status_command; in_frame 8;
                out_frame (nss_command SPI_NSS_HIGH); in_frame 2] /\
  Forall event_ok tr /\ status_polls tr = [0] /\ starts_out tr.
Proof.
  intros Hrun. pose proof Hrun as Hrun'. unfold transmit_finish in Hrun.
  apply bind_run in Hrun as (st & d1 & t1 & t2 & Hm & Hf & ->);
    [|apply get_last_readwrite_status_done].
  destruct st as [rw_status|];
    [|by apply transmit_err_release in Hf as [[=] _]].
  destruct (Z.eqb_spec rw_status 0) as [->|Hst]; cbn [negb] in Hf;
    [|by apply transmit_err_release in Hf as [[=] _]].
  apply bind_run in Hf as (a & d2 & t3 & t4 & Hm' & Hf & ->);
    [|apply set_SPI_NSS_done].
  destruct (Z.eqb_spec a 0) as [->|Ha]; cbn [negb] in Hf; [|discriminate].
  injection Hf as <- <- <-. rewrite app_nil_r in *.
  apply get_last_readwrite_status_success in Hm as [Hmap1 Hok1].
  apply set_SPI_NSS_success in Hm' as [Hmap2 Hok2].
  assert (Hok : Forall event_ok (t1 ++ t3)) by by apply Forall_app.
  apply transmit_finish_ok in Hrun' as (st & [= Hst] & Hp & _ & Ho); [|done].
  split; [done|]. split.
  { exact (map_fst_app _ _ _ _ Hmap1 Hmap2). }
  split; [done|]. split; [|done].
  rewrite Hp. destruct (Z.eqb_spec st 0) as [E|E]; [by rewrite E|discriminate Hst].
Qed.

Lemma transmit_read_success read_cnt command read_arr buf (d d' : D) tr :
  0 <= read_cnt < 2 ^ 32 ->
  length command = 16%nat ->
  transmit_read read_cnt command read_arr d = (Done (0, buf), d', tr) ->
  map fst tr =
    (if read_cnt =? 0 then []
     else [out_frame (read_command read_cnt command);
           Transfer STLINK_EP_IN read_arr (int32 read_cnt) USB_TIMEOUT])
    ++ [out_frame status_command; in_frame 8;
        out_frame (nss_command SPI_NSS_HIGH); in_frame 2] /\
  Forall accepted tr /\ status_polls tr = [0] /\ starts_out tr /\
  (if read_cnt =? 0 then buf = read_arr
   else exists c,
     tr !! 1%nat = Some (Transfer STLINK_EP_IN read_arr (int32 read_cnt)
                           USB_TIMEOUT, c) /\
     buf = deliver read_arr (received c)).
Proof.
  unfold transmit_read. intros Hcnt Hlen Hrun.
  destruct (read_cnt =? 0); cbn [negb] in Hrun.
  { apply transmit_finish_success in Hrun as (-> & Hmap & Hok & Hp & Ho).
    split; [done|]. split; [|done].
    eapply Forall_impl; [exact Hok | apply event_ok_accepted]. }
  apply bind_transfer_run in Hrun as (c1 & d1 & t1 & Hrun & ->).
  destruct (failed c1 16) eqn:Hc1;
    [by apply transmit_err_release in Hrun as [[=] _]|].
  apply bind_transfer_run in Hrun as (c2 & d2 & t2 & Hrun & ->).
  cbv zeta in Hrun. destruct (failed_u c2 read_cnt) eqn:Hc2;
    [by apply transmit_err_release in Hrun as [[=] _]|].
  apply transmit_finish_success in Hrun as (-> & Hmap & Hok & Hp & Ho).
  apply failed_false_inv in Hc1 as [Hrc1 Hlen1].
  apply failed_u_false_inv in Hc2 as [Hrc2 Hlen2].
  split; [cbn [map fst app]; by rewrite Hmap|].
  split; [|split; [|split; [done|]]].
  - constructor; [apply event_ok_accepted; by split|].
    constructor; [split; [done|]; cbn [fst snd xfer_length];
                  by rewrite uint32_int32|].
    eapply Forall_impl; [exact Hok | apply event_ok_accepted].
  - change (status_polls (?a :: ?b :: t2)) with (status_polls ([a; b] ++ t2)).
    rewrite (status_polls_app [_; _] t2 Ho), Hp. cbn [status_polls].
    rewrite bool_decide_false by (by apply read_command_not_status).
    by rewrite andb_false_r.
  - by exists c2.
Qed.

Lemma transmit_after_write_success read_cnt command read_arr buf (d d' : D) tr :
  0 <= read_cnt < 2 ^ 32 ->
  length command = 16%nat ->
  transmit_after_write read_cnt command read_arr d = (Done (0, buf), d', tr) ->
  map fst tr =
    [out_frame status_command; in_frame 8]
    ++ (if read_cnt =? 0 then []
        else [out_frame (read_command read_cnt command);
              Transfer STLINK_EP_IN read_arr (int32 read_cnt) USB_TIMEOUT])
    ++ [out_frame status_command; in_frame 8;
        out_frame (nss_command SPI_NSS_HIGH); in_frame 2] /\
  Forall accepted tr /\ status_polls tr = [0; 0] /\ starts_out tr /\
  (if read_cnt =? 0 then buf = read_arr
   else exists c,
     tr !! 3%nat = Some (Transfer STLINK_EP_IN read_arr (int32 read_cnt)
                           USB_TIMEOUT, c) /\
     buf = deliver read_arr (received c)).
Proof.
  unfold transmit_after_write. intros Hcnt Hlen Hrun.
  apply bind_run in Hrun as (st & d1 & t1 & t2 & Hm & Hf & ->);
    [|apply get_last_readwrite_status_done].
  destruct st as [rw_status|]; [|discriminate].
  destruct (Z.eqb_spec rw_status 0) as [->|Hst]; cbn [negb] in Hf;
    [|by apply transmit_err_release in Hf as [[=] _]].
  pose proof Hm as Hm'.
  apply get_last_readwrite_status_success in Hm as [Hmap1 Hok1].
  apply get_last_readwrite_status_ok in Hm' as (st & [= <-] & Hp1 & _ & Ho1);
    [|done].
  apply transmit_read_success in Hf as (Hmap2 & Hacc & Hp2 & Ho2 & Hbuf);
    [|done..].
  split; [exact (map_fst_app _ _ _ _ Hmap1 Hmap2)|].
  split; [apply Forall_app; split; [|done];
          eapply Forall_impl; [exact Hok1 | apply event_ok_accepted]|].
  split; [by rewrite status_polls_app, Hp1, Hp2|].
  split; [by apply starts_out_app|].
  destruct (read_cnt =? 0); [done|].
  destruct Hbuf as (c & Hc & ->). exists c. split; [|done].
  destruct t1 as [|e1 [|e2 [|e3 t1]]]; try discriminate Hmap1.
  exact Hc.
Qed.

Lemma transmit_success_shape (write_cnt read_cnt : Z)
    (write_arr read_arr buf : list Z) (d d' : D) tr :
  0 <= write_cnt < 2 ^ 32 ->
  0 <= read_cnt < 2 ^ 32 ->
  stlinkv3_spi_transmit write_cnt read_cnt write_arr read_arr d
    = (Done (0, buf), d', tr) ->
  map fst tr = transaction_transfers write_cnt read_cnt write_arr read_arr /\
  Forall accepted tr /\ status_polls tr = [0; 0] /\
  (if read_cnt =? 0 then buf = read_arr
   else exists c,
     tr !! (if 8 <? write_cnt then 7%nat else 6%nat)
       = Some (Transfer STLINK_EP_IN read_arr (int32 read_cnt) USB_TIMEOUT, c) /\
     buf = deliver read_arr (received c)).
Proof.
  unfold stlinkv3_spi_transmit, transaction_transfers. intros Hw Hr Hrun.
  apply bind_run in Hrun as (a & d1 & t1 & t2 & Hm & Hf & ->);
    [|apply set_SPI_NSS_done].
  destruct (Z.eqb_spec a 0) as [->|Ha]; cbn [negb] in Hf; [|discriminate].
  pose proof Hm as Hm'.
  apply set_SPI_NSS_success in Hm as [Hmap1 Hok1].
  apply set_SPI_NSS_ok in Hm' as (_ & Hp1 & _ & Ho1); [|done].
  destruct t1 as [|e1 [|e2 [|e3 t1]]]; try discriminate Hmap1.
  cbv zeta in Hf.
  apply bind_transfer_run in Hf as (c1 & d2 & t3 & Hf & ->).
  destruct (failed c1 16) eqn:Hc1;
    [by apply transmit_err_release in Hf as [[=] _]|].
  apply failed_false_inv in Hc1 as [Hrc1 Hlen1].
  assert (Hacc1 : Forall accepted [e1; e2]).
  { eapply Forall_impl; [exact Hok1 | apply event_ok_accepted]. }
  destruct (8 <? write_cnt) eqn:Hlong.
  - apply bind_transfer_run in Hf as (c2 & d3 & t4 & Hf & ->).
    destruct (failed_u c2 (write_cnt - 8)) eqn:Hc2;
      [by apply transmit_err_release in Hf as [[=] _]|].
    apply failed_u_false_inv in Hc2 as [Hrc2 Hlen2].
    apply Z.ltb_lt in Hlong.
    apply transmit_after_write_success in Hf as (Hmap & Hacc & Hp & Ho & Hbuf);
      [|done|apply write_command_length].
    split; [cbn [app map fst] in Hmap1 |- *; injection Hmap1 as -> ->;
            by rewrite Hmap|].
    split; [|split].
    + apply (Forall_app _ [e1; e2]). split; [done|].
      constructor; [by apply event_ok_accepted|].
      constructor; [|done].
      split; [done|]. cbn [fst snd xfer_length].
      by rewrite uint32_int32 by lia.
    + change ([e1; e2] ++ ?x :: ?y :: t4) with ([e1; e2] ++ [x; y] ++ t4).
      rewrite app_assoc, status_polls_app, status_polls_app, Hp1, Hp by done.
      done.
    + destruct (read_cnt =? 0); [done|]. exact Hbuf.
  - apply transmit_after_write_success in Hf as (Hmap & Hacc & Hp & Ho & Hbuf);
      [|done|apply write_command_length].
    split; [cbn [app map fst] in Hmap1 |- *; injection Hmap1 as -> ->;
            by rewrite Hmap|].
    split; [|split].
    + apply (Forall_app _ [e1; e2]). split; [done|].
      constructor; [by apply event_ok_accepted|done].
    + change ([e1; e2] ++ ?x :: t3) with ([e1; e2] ++ [x] ++ t3).
      rewrite app_assoc, status_polls_app, status_polls_app, Hp1, Hp by done.
      done.
    + destruct (read_cnt =? 0); [done|]. exact Hbuf.
Qed.

(** X4. A transaction that returns 0 issued exactly the transfers of
    [transaction_transfers], in that order: chip-select Low and its
    acknowledgement, the write frame, the payload rest when more than 8 bytes
    are written, a status poll, the read command and the read when bytes are
    requested, a second status poll, chip-select High and its
    acknowledgement.  Every one of them was reported complete with the
    requested length (modulo 2^32), and both status words were zero. *)
Theorem transmit_success_transfers (write_cnt read_cnt : Z)
    (write_arr read_arr buf : list Z) (d d' : D) tr :
  0 <= write_cnt < 2 ^ 32 ->
  0 <= read_cnt < 2 ^ 32 ->
  stlinkv3_spi_transmit write_cnt read_cnt write_arr read_arr d
    = (Done (0, buf), d', tr) ->
  map fst tr = transaction_transfers write_cnt read_cnt write_arr read_arr /\
  Forall accepted tr /\ status_polls tr = [0; 0].
Proof.
  intros Hw Hr Hrun.
  by destruct (transmit_success_shape _ _ _ _ _ _ _ _ Hw Hr Hrun)
    as (? & ? & ? & _).
Qed.

Lemma length_deliver (buf recv : list Z) : length (deliver buf recv) = length buf.
Proof.
  unfold deliver. rewrite length_take, length_app, length_drop. lia.
Qed.

Lemma deliver_full (buf recv : list Z) :
  length recv = length buf -> deliver buf recv = recv.
Proof.
  intros Hlen. unfold deliver.
  rewrite Hlen, drop_all, app_nil_r, <- Hlen. apply firstn_all.
Qed.

(** X5. The data of a transaction that returns 0: with a read count of 0 the
    caller's buffer is returned untouched; otherwise it holds what the read
    transfer (the seventh transfer, or the eighth after a payload rest)
    delivered into it, its size unchanged, and it is exactly the received
    bytes when the probe delivered as many bytes as the buffer holds. *)
Theorem transmit_success_data (write_cnt read_cnt : Z)
    (write_arr read_arr buf : list Z) (d d' : D) tr :
  0 <= write_cnt < 2 ^ 32 ->
  0 <= read_cnt < 2 ^ 32 ->
  stlinkv3_spi_transmit write_cnt read_cnt write_arr read_arr d
    = (Done (0, buf), d', tr) ->
  length buf = length read_arr /\
  (read_cnt = 0 -> buf = read_arr) /\
  (read_cnt <> 0 ->
   exists c,
     tr !! (if 8 <? write_cnt then 7%nat else 6%nat)
       = Some (Transfer STLINK_EP_IN read_arr (int32 read_cnt) USB_TIMEOUT, c) /\
     buf = deliver read_arr (received c) /\
     (length (received c) = length read_arr -> buf = received c)).
Proof.
  intros Hw Hr Hrun.
  destruct (transmit_success_shape _ _ _ _ _ _ _ _ Hw Hr Hrun)
    as (_ & _ & _ & Hbuf).
  destruct (Z.eqb_spec read_cnt 0) as [Hz|Hnz].
  - subst buf. split; [done|]. split; [done|]. intros Hne. by destruct Hne.
  - destruct Hbuf as (c & Hc & ->). split; [apply length_deliver|].
    split; [intros Hz; by destruct Hnz|]. intros _. exists c.
    split; [done|]. split; [done|]. apply deliver_full.
Qed.

End SuccessfulTransaction.

(** ** Frame layout *)

Lemma cell_ext (l1 l2 : list Z) :
  length l1 = length l2 -> (forall k, cell l1 k = cell l2 k) -> l1 = l2.
Proof.
  intros Hlen Hcell. apply list_eq. intros k. specialize (Hcell k).
  unfold cell in Hcell.
  destruct (l1 !! k) as [x|] eqn:E1, (l2 !! k) as [y|] eqn:E2; cbn in Hcell.
  - by subst.
  - apply lookup_lt_Some in E1. apply lookup_ge_None in E2. lia.
  - apply lookup_ge_None in E1. apply lookup_lt_Some in E2. lia.
  - done.
Qed.

(** X6. Layout of the two command frames of a transaction.  The write frame
    is zero after the inline payload; it depends on the payload only through
    its first [min 8 write_cnt] bytes (nothing beyond is read); and the read
    frame is the write frame with bytes 1..3 replaced: from byte 4 on it still
    carries the inline payload of the write. *)
Theorem command_frames_layout (write_cnt read_cnt : Z) (write_arr : list Z) :
  0 <= write_cnt ->
  let w := write_command write_cnt write_arr in
  let r := read_command read_cnt w in
  length w = 16%nat /\ length r = 16%nat /\
  (forall k : nat, 4 + Z.min 8 write_cnt <= Z.of_nat k -> cell w k = 0) /\
  (forall write_arr',
     (forall i : nat, Z.of_nat i < Z.min 8 write_cnt ->
                      cell write_arr' i = cell write_arr i) ->
     write_command write_cnt write_arr' = w) /\
  cell r 0 = STLINK_BRIDGE_COMMAND /\
  cell r 1 = STLINK_BRIDGE_READ_SPI /\
  cell r 2 = read_cnt mod 2 ^ 8 /\
  cell r 3 = (read_cnt / 2 ^ 8) mod 2 ^ 8 /\
  (forall k : nat, (4 <= k)%nat -> cell r k = cell w k).
Proof.
  intros Hcnt w r. subst w r.
  pose proof (write_command_length write_cnt write_arr) as Hlen.
  split; [done|]. split; [unfold read_command; by rewrite !length_insert|].
  split.
  { intros k Hk. rewrite write_command_cell, decide_False by lia.
    do 4 (destruct k as [|k]; [lia|]). reflexivity. }
  split.
  { intros write_arr' Hagree. apply cell_ext.
    - by rewrite !write_command_length.
    - intros k. rewrite !write_command_cell.
      destruct (decide _); [|reflexivity]. apply Hagree. lia. }
  rewrite !read_command_cell by done.
  rewrite write_command_cell, decide_False by (cbn; lia).
  split; [reflexivity|]. split; [reflexivity|]. split; [reflexivity|].
  split; [unfold uint8; by rewrite Z.shiftr_div_pow2 by lia|].
  intros k Hk. rewrite read_command_cell by done.
  by do 4 (destruct k as [|k]; [lia|]).
Qed.

(** X7. The enumerator that goes on the wire is the binary logarithm of the
    divisor minus one: for every ratio the [prescaler_value] chosen by the
    if-chain is 2^(code + 1), the code is within 0..7, it is byte 6 of the
    initialization frame, and different divisors give different frames. *)
Theorem prescaler_code_is_log2 (ratio : Z) (q : SPI_prescaler_t) :
  let p := (select_prescaler ratio).1 in
  (select_prescaler ratio).2 = 2 ^ (prescaler_code p + 1) /\
  0 <= prescaler_code p <= 7 /\
  cell (init_command p) 6 = prescaler_code p /\
  (init_command p = init_command q -> p = q).
Proof.
  intros p. subst p. rewrite select_prescaler_divisor.
  destruct (select_prescaler ratio).1;
    (split; [reflexivity|]; split; [cbn; lia|]; split; [reflexivity|];
     destruct q; intros E; (reflexivity || discriminate E)).
Qed.

(** ** Bounds on the negotiated clock *)

Section ClockBounds.
Context {D : Type} `{UsbDevice D}.

(** X8. How far the frequency handed back can be from the request [f] when
    the bridge reports [c]: with [c / f <= 256] it is at most one and a half
    times the request, and at most the request when the selected divisor is
    above the truncated ratio or when [f] divides [c]; with [c / f > 256] the
    slowest clock [c / 256] is still at least the request. *)
Theorem calc_prescaler_bounds (f c : Z) (d d' : D) (tr : list event) :
  stlinkv3_get_clk d = (Done (Some c), d', tr) ->
  0 < f ->
  exists p freq,
    stlinkv3_spi_calc_prescaler f d = (Done (Some (p, freq)), d', tr) /\
    (c / f <= 256 ->
     2 * freq <= 3 * f /\
     (c / f < prescaler_divisor p -> freq <= f) /\
     (c mod f = 0 -> freq <= f)) /\
    (256 < c / f -> prescaler_divisor p = 256 /\ f <= c / 256).
Proof.
  intros Hclk Hf.
  exists (select_prescaler (c / f)).1,
    (uint16 (c / prescaler_divisor (select_prescaler (c / f)).1)).
  split; [apply calc_prescaler_run; [done|lia]|].
  pose proof (get_clk_range _ _ _ _ Hclk) as Hc.
  pose proof (prescaler_divisor_pos (select_prescaler (c / f)).1) as Hp.
  pose proof (Z.mul_succ_div_gt c f Hf) as Hgt.
  pose proof (Z.mul_div_le c f Hf) as Hle.
  split.
  - intros Hsmall.
    destruct (select_prescaler_least (c / f) Hsmall) as [Hr _].
    set (P := prescaler_divisor (select_prescaler (c / f)).1) in *.
    set (r := c / f) in *.
    assert (0 <= c / P) by (apply Z.div_pos; lia).
    assert (uint16 (c / P) <= c / P) by (apply Z.mod_le; lia).
    pose proof (Z.mul_div_le c P ltac:(lia)) as HleP.
    assert (Hlow : r < P -> c / P < f).
    { intros Hlt. apply Z.div_lt_upper_bound; [lia|]. nia. }
    split; [|split].
    + destruct (decide (r < P)) as [Hlt|Hge]; [specialize (Hlow Hlt); lia|].
      assert (r = P) as Heq by lia.
      assert (2 * (c / P) <= 3 * f); [|lia].
      rewrite Heq in Hgt. nia.
    + intros Hlt. specialize (Hlow Hlt). lia.
    + intros Hexact. assert (c = f * r) as Hc'.
      { unfold r. pose proof (Z.div_mod c f ltac:(lia)). lia. }
      assert (c / P <= f); [|lia].
      apply Z.div_le_upper_bound; [lia|]. nia.
  - intros Hbig. rewrite (select_prescaler_clamp _ Hbig). split; [reflexivity|].
    apply Z.div_le_lower_bound; [lia|]. nia.
Qed.

End ClockBounds.

(** ** Session open, initialization and shutdown *)

Section OpenFacts.
Context {D : Type} `{UsbDevice D}.

Lemma check_version_done (d : D) : is_done (stlinkv3_check_version d).1.1 = true.
Proof.
  unfold stlinkv3_check_version, bind, libusb_bulk_transfer, ret.
  destruct (usb_bulk d _) as [c1 d1]; destruct (failed c1 16); [reflexivity|].
  destruct (usb_bulk d1 _) as [c2 d2]; by destruct (failed c2 12).
Qed.

Lemma check_version_inv (d d' : D) r tr :
  stlinkv3_check_version d = (r, d', tr) ->
  sent tr = [version_command] /\
  (forall v, r = Done (Some v) ->
     map fst tr = [out_frame version_command; in_frame 12] /\
     Forall event_ok tr).
Proof.
  unfold stlinkv3_check_version. intros Hrun.
  apply bind_transfer_run in Hrun as (c1 & d1 & t1 & Hrun & ->).
  destruct (failed c1 16) eqn:Hc1; [by injection Hrun as <- <- <-|].
  apply bind_transfer_run in Hrun as (c2 & d2 & t2 & Hrun & ->).
  destruct (failed c2 12) eqn:Hc2; injection Hrun as <- <- <-; [done|].
  split; [done|]. intros v _. split; [done|].
  apply failed_false_inv in Hc1, Hc2.
  repeat (apply Forall_cons; split; [done|]). by apply Forall_nil.
Qed.

Lemma get_clk_inv (d d' : D) r tr :
  stlinkv3_get_clk d = (r, d', tr) ->
  sent tr = [get_clk_command] /\
  (forall c, r = Done (Some c) ->
     map fst tr = [out_frame get_clk_command; in_frame 12] /\
     Forall event_ok tr).
Proof.
  unfold stlinkv3_get_clk. intros Hrun.
  apply bind_transfer_run in Hrun as (c1 & d1 & t1 & Hrun & ->).
  destruct (failed c1 16) eqn:Hc1; [by injection Hrun as <- <- <-|].
  apply bind_transfer_run in Hrun as (c2 & d2 & t2 & Hrun & ->).
  destruct (failed c2 12) eqn:Hc2; injection Hrun as <- <- <-; [done|].
  split; [done|]. intros v _. split; [done|].
  apply failed_false_inv in Hc1, Hc2.
  repeat (apply Forall_cons; split; [done|]). by apply Forall_nil.
Qed.

(** The prescaler computation issues the clock query and nothing else. *)
Lemma calc_prescaler_inv (f : Z) (d d' : D) r tr :
  stlinkv3_spi_calc_prescaler f d = (r, d', tr) ->
  exists rc, stlinkv3_get_clk d = (rc, d', tr) /\
    match rc with
    | Done (Some c) =>
        if f =? 0 then r = Undefined
        else r = Done (Some ((select_prescaler (c / f)).1,
                 uint16 (c / prescaler_divisor (select_prescaler (c / f)).1)))
    | Done None => r = Done None
    | Undefined => False
    end.
Proof.
  intros Hrun. destruct (stlinkv3_get_clk d) as [[rc d1] t1] eqn:Hclk.
  pose proof (get_clk_done d) as Hdone. rewrite Hclk in Hdone.
  destruct rc as [[c|]|]; [| |discriminate].
  - destruct (Z.eqb_spec f 0) as [->|Hf0].
    + unfold stlinkv3_spi_calc_prescaler, bind in Hrun. rewrite Hclk in Hrun.
      cbn in Hrun. injection Hrun as <- <- <-. rewrite app_nil_r.
      by exists (Done (Some c)).
    + rewrite (calc_prescaler_run _ _ _ _ _ Hclk Hf0) in Hrun.
      injection Hrun as <- <- <-. exists (Done (Some c)). split; [done|].
      by destruct (Z.eqb_spec f 0).
  - unfold stlinkv3_spi_calc_prescaler, bind in Hrun. rewrite Hclk in Hrun.
    cbn in Hrun. injection Hrun as <- <- <-. rewrite app_nil_r.
    by exists (Done None).
Qed.

Lemma init_command_not_query (p : SPI_prescaler_t) :
  init_command p <> version_command /\ init_command p <> get_clk_command.
Proof. by destruct p. Qed.

Lemma init_command_inj (p q : SPI_prescaler_t) :
  init_command p = init_command q -> p = q.
Proof. destruct p, q; intros E; (reflexivity || discriminate E). Qed.

Lemma open_cases (f : Z) (d d' : D) r tr :
  stlinkv3_spi_open f d = (r, d', tr) ->
  (exists rv, rv <> Done (Some FW_VERSION_OK) /\
     stlinkv3_check_version d = (rv, d', tr) /\ r = Done (-1)) \/
  (exists d1 t1 t2 rc,
     stlinkv3_check_version d = (Done (Some FW_VERSION_OK), d1, t1) /\
     stlinkv3_get_clk d1 = (rc, d', t2) /\ tr = t1 ++ t2 /\
     (rc = Done None /\ r = Done (-1) \/
      (exists c, rc = Done (Some c)) /\ f = 0 /\ r = Undefined)) \/
  (exists d1 t1 d2 t2 c ci d3 ca,
     stlinkv3_check_version d = (Done (Some FW_VERSION_OK), d1, t1) /\
     stlinkv3_get_clk d1 = (Done (Some c), d2, t2) /\ f <> 0 /\
     let p := (select_prescaler (c / f)).1 in
     usb_bulk d2 (out_frame (init_command p)) = (ci, d3) /\
     (init_send_failed ci = true /\ r = Done (-1) /\ d' = d3 /\
      tr = t1 ++ t2 ++ [(out_frame (init_command p), ci)] \/
      init_send_failed ci = false /\
      usb_bulk d3 (in_frame 2) = (ca, d') /\
      r = Done (if failed ca 2 then -1 else 0) /\
      tr = t1 ++ t2 ++ [(out_frame (init_command p), ci); (in_frame 2, ca)])).
Proof.
  unfold stlinkv3_spi_open. intros Hrun.
  apply bind_run in Hrun as (v & d1 & t1 & t2 & Hv & Hf & ->);
    [|apply check_version_done].
  destruct v as [[|]|].
  2,3: left; unfold ret in Hf; injection Hf as <- <- <-; rewrite app_nil_r;
       eexists; (split; [|split; [exact Hv|done]]); done.
  right.
  destruct (stlinkv3_spi_calc_prescaler f d1) as [[rp d2] t3] eqn:Hcalc.
  pose proof Hcalc as Hcalc'.
  apply calc_prescaler_inv in Hcalc' as (rc & Hclk & Hrc).
  unfold bind at 1 in Hf. rewrite Hcalc in Hf.
  destruct rc as [[c|]|]; [|subst rp|done].
  - destruct (Z.eqb_spec f 0) as [->|Hf0]; subst rp.
    + injection Hf as <- <- <-. left. exists d1, t1, t3, (Done (Some c)).
      split; [done|]. split; [done|]. split; [done|]. right.
      split; [by exists c|done].
    + right. unfold bind, libusb_bulk_transfer, ret in Hf.
      set (p := (select_prescaler (c / f)).1) in *.
      destruct (usb_bulk d2 _) as [ci d3] eqn:Hci.
      destruct (init_send_failed ci) eqn:Hfail.
      * injection Hf as <- <- <-.
        exists d1, t1, d2, t3, c, ci, d3, ci.
        split; [done|]. split; [done|]. split; [done|]. split; [exact Hci|].
        by left.
      * destruct (usb_bulk d3 _) as [ca d4] eqn:Hca.
        exists d1, t1, d2, t3, c, ci, d3, ca.
        split; [done|]. split; [done|]. split; [done|]. split; [exact Hci|].
        right. split; [done|].
        by destruct (failed ca 2); injection Hf as <- <- <-.
  - injection Hf as <- <- <-. left. exists d1, t1, t3, (Done None).
    split; [done|]. split; [done|]. split; [by rewrite app_nil_r|]. by left.
Qed.

End OpenFacts.

Section OpenProperties.
Context {D : Type} `{UsbDevice D}.

(** X9. A session open that returns 0 needed firmware 3 or later, a clock
    answer [c] and a nonzero request, and issued exactly six transfers: the
    version query and its answer, the clock query and its answer, the
    initialization frame for the divisor selected from [c / f], and the
    acknowledgement.  All of them but the initialization send (the fifth) were
    reported complete with the requested length. *)
Theorem open_success_transfers (f : Z) (d d' : D) (tr : list event) :
  stlinkv3_spi_open f d = (Done 0, d', tr) ->
  f <> 0 /\
  exists d1 t1 d2 t2 c,
    stlinkv3_check_version d = (Done (Some FW_VERSION_OK), d1, t1) /\
    stlinkv3_get_clk d1 = (Done (Some c), d2, t2) /\
    map fst tr = open_transfers (select_prescaler (c / f)).1 /\
    forall (i : nat) e, i <> 4%nat -> tr !! i = Some e -> event_ok e.
Proof.
  intros Hrun. apply open_cases in Hrun
    as [(rv & _ & _ & [=]) | [(d1 & t1 & t2 & rc & _ & _ & _ & Hr) | Hok]].
  { by destruct Hr as [[_ [=]] | [_ [_ [=]]]]. }
  destruct Hok as (d1 & t1 & d2 & t2 & c & ci & d3 & ca & Hv & Hc & Hf & Hci & Hr).
  destruct Hr as [(_ & [=] & _) | (_ & Hca & Hr & ->)].
  destruct (failed ca 2) eqn:Hack; [discriminate Hr|].
  split; [done|]. exists d1, t1, d2, t2, c. split; [done|]. split; [done|].
  apply check_version_inv in Hv as [_ Hv]. destruct (Hv _ eq_refl) as [Hm1 Hok1].
  apply get_clk_inv in Hc as [_ Hc]. destruct (Hc _ eq_refl) as [Hm2 Hok2].
  destruct t1 as [|e1 [|e2 [|? ?]]]; try discriminate Hm1.
  destruct t2 as [|e3 [|e4 [|? ?]]]; try discriminate Hm2.
  cbn [app map fst] in Hm1, Hm2 |- *.
  injection Hm1 as -> ->. injection Hm2 as -> ->. split; [reflexivity|].
  apply Forall_cons in Hok1 as [He1 Hok1]. apply Forall_cons in Hok1 as [He2 _].
  apply Forall_cons in Hok2 as [He3 Hok2]. apply Forall_cons in Hok2 as [He4 _].
  apply failed_false_inv in Hack.
  intros i e Hi Hlook.
  do 6 (destruct i as [|i]; [cbn in Hlook; try done; by injection Hlook as <-|]).
  discriminate Hlook.
Qed.

(** X10. [stlinkv3_spi_open] returns 0 or -1 or ends in the division by zero
    (only for a request of 0), and it writes an initialization frame only
    after the version check said OK and the clock query gave an answer: then
    the frames written are the version query, the clock query and the
    initialization frame of the selected divisor, and in every other case
    nothing but the queries went out. *)
Theorem open_init_only_after_checks (f : Z) (d d' : D) r (tr : list event) :
  stlinkv3_spi_open f d = (r, d', tr) ->
  (r = Done 0 \/ r = Done (-1) \/ r = Undefined /\ f = 0) /\
  (sent tr = [version_command] \/
   sent tr = [version_command; get_clk_command] \/
   f <> 0 /\
   exists d1 t1 d2 t2 c,
     stlinkv3_check_version d = (Done (Some FW_VERSION_OK), d1, t1) /\
     stlinkv3_get_clk d1 = (Done (Some c), d2, t2) /\
     sent tr = [version_command; get_clk_command;
                init_command (select_prescaler (c / f)).1]) /\
  forall p, In (init_command p) (sent tr) ->
            exists c, p = (select_prescaler (c / f)).1 /\
                      last (sent tr) = Some (init_command p).
Proof.
  intros Hrun. apply open_cases in Hrun
    as [(rv & _ & Hv & ->) | [(d1 & t1 & t2 & rc & Hv & Hc & -> & Hr) | Hok]].
  - apply check_version_inv in Hv as [Hs _]. rewrite Hs.
    split; [by right; left|]. split; [by left|].
    intros p [E|[]]. by destruct (init_command_not_query p).
  - apply check_version_inv in Hv as [Hs1 _]. apply get_clk_inv in Hc as [Hs2 _].
    rewrite sent_app, Hs1, Hs2. split.
    { destruct Hr as [[_ ->] | [_ [-> ->]]]; [by right; left|by right; right]. }
    split; [by right; left|].
    intros p [E|[E|[]]]; by destruct (init_command_not_query p).
  - destruct Hok
      as (d1 & t1 & d2 & t2 & c & ci & d3 & ca & Hv & Hc & Hf & Hci & Hr).
    pose proof Hv as Hv'. pose proof Hc as Hc'.
    apply check_version_inv in Hv' as [Hs1 _].
    apply get_clk_inv in Hc' as [Hs2 _].
    assert (Hsent : sent tr = [version_command; get_clk_command;
                                init_command (select_prescaler (c / f)).1]).
    { destruct Hr as [(_ & _ & _ & ->) | (_ & _ & _ & ->)];
        by rewrite !sent_app, Hs1, Hs2. }
    split.
    { destruct Hr as [(_ & -> & _) | (_ & _ & -> & _)]; [by right; left|].
      destruct (failed ca 2); [by right; left|by left]. }
    split; [right; right; split; [done|]; by exists d1, t1, d2, t2, c|].
    rewrite Hsent. intros p [E|[E|[E|[]]]];
      try by destruct (init_command_not_query p).
    exists c. split; [|by rewrite <- E].
    symmetry. by apply init_command_inj.
Qed.

End OpenProperties.

Section InitProperties.
Context {D : Type} `{UsbDevice D}.

(** X11. Configuration failures of [stlinkv3_spi_init] touch nothing: without
    a libusb context or without a probe the function returns 1, and with a
    [spispeed] string that [strtoul] does not consume to its end it returns
    -1; in all three cases no transfer is issued and the probe is left as it
    was. *)
Theorem init_config_failures (ULONG_MAX rs rm : Z) (usb_ctx_ok handle_found : bool)
    (serial speed_str : option string) (d : D) :
  (usb_ctx_ok = false \/ handle_found = false ->
   stlinkv3_spi_init ULONG_MAX usb_ctx_ok serial handle_found speed_str rs rm d
     = (Done 1, d, [])) /\
  (forall str, usb_ctx_ok = true -> handle_found = true ->
     speed_str = Some str -> (strtoul ULONG_MAX str).2 <> EmptyString ->
     stlinkv3_spi_init ULONG_MAX usb_ctx_ok serial handle_found speed_str rs rm d
       = (Done (-1), d, [])).
Proof.
  split.
  - intros [-> | ->]; unfold stlinkv3_spi_init; [reflexivity|].
    by destruct usb_ctx_ok.
  - intros str -> -> -> Hrest. unfold stlinkv3_spi_init. cbn [negb].
    destruct (strtoul ULONG_MAX str) as [v endptr]. cbn [snd] in Hrest.
    by destruct endptr.
Qed.

(** X12. With a context, a probe and a usable speed (1000 kHz without the
    parameter, else the parsed value reduced modulo 2^16),
    [stlinkv3_spi_init] issues exactly the transfers of the session open at
    that speed, and it returns 0 exactly when the open returned 0 and both
    registrations returned 0; otherwise it returns 1, or ends where the open
    ended in the division by zero. *)
Theorem init_success_iff (ULONG_MAX rs rm sck : Z) (serial speed_str : option string)
    (d d' : D) r (tr : list event) :
  (speed_str = None /\ sck = 1000 \/
   exists str v, speed_str = Some str /\
                 strtoul ULONG_MAX str = (v, EmptyString) /\ sck = v mod 2 ^ 16) ->
  stlinkv3_spi_init ULONG_MAX true serial true speed_str rs rm d = (r, d', tr) ->
  exists ro,
    stlinkv3_spi_open sck d = (ro, d', tr) /\
    (r = Done 0 <-> ro = Done 0 /\ rs = 0 /\ rm = 0) /\
    (r = Done 0 \/ r = Done 1 \/ r = Undefined /\ ro = Undefined).
Proof.
  intros Hspeed Hrun.
  assert (Hbody :
    bind (stlinkv3_spi_open sck)
      (fun r0 => if negb (r0 =? 0) then ret 1
                 else if negb (rs =? 0) then ret 1
                 else if negb (rm =? 0) then ret 1 else ret 0) d = (r, d', tr)).
  { unfold stlinkv3_spi_init in Hrun. cbn [negb] in Hrun.
    destruct Hspeed as [[-> ->] | (str & v & -> & Hparse & ->)]; [exact Hrun|].
    rewrite Hparse in Hrun. exact Hrun. }
  clear Hrun. unfold bind in Hbody.
  destruct (stlinkv3_spi_open sck d) as [[[a|] d1] t1] eqn:Hopen.
  - exists (Done a).
    destruct (Z.eqb_spec a 0) as [->|Ha], (Z.eqb_spec rs 0) as [->|Hrs],
      (Z.eqb_spec rm 0) as [->|Hrm];
      cbn in Hbody; injection Hbody as <- <- <-; rewrite app_nil_r;
      (split; [done|]); (split; [|by auto]);
      split; (done || (intros (? & ? & ?); congruence) || (intros; congruence)).
  - injection Hbody as <- <- <-. exists Undefined. split; [done|].
    split; [split; [done|by intros [? _]]|]. by right; right.
Qed.

(** X13. The speed is stored in a [uint16_t]: a [spispeed] string that
    [strtoul] consumes completely and whose value is a multiple of 65536
    (65536 itself, for one) requests 0 kHz, and on a probe with firmware 3 or
    later and a clock answer the initialization ends in the division by
    zero. *)
Theorem init_speed_wraps_to_zero (ULONG_MAX v c rs rm : Z) (str : string)
    (serial : option string) (d d1 d2 : D) (tr1 tr2 : list event) :
  strtoul ULONG_MAX str = (v, EmptyString) ->
  v mod 2 ^ 16 = 0 ->
  stlinkv3_check_version d = (Done (Some FW_VERSION_OK), d1, tr1) ->
  stlinkv3_get_clk d1 = (Done (Some c), d2, tr2) ->
  stlinkv3_spi_init ULONG_MAX true serial true (Some str) rs rm d =
    (Undefined, d2, tr1 ++ tr2).
Proof.
  intros Hparse Hwrap Hver Hclk. unfold stlinkv3_spi_init. cbn [negb].
  rewrite Hparse. unfold uint16. rewrite Hwrap.
  unfold bind at 1, stlinkv3_spi_open, bind at 1. rewrite Hver.
  unfold bind at 1, stlinkv3_spi_calc_prescaler, bind at 1. rewrite Hclk.
  cbn. by rewrite app_nil_r.
Qed.

(** X14. [stlinkv3_spi_shutdown] is best effort: whatever the two
    completions are, it sends the close frame, reads the 2-byte
    acknowledgement (also after a failed send) and returns 0. *)
Theorem shutdown_best_effort (d : D) :
  exists c1 d1 c2 d2,
    usb_bulk d (out_frame close_command) = (c1, d1) /\
    usb_bulk d1 (in_frame 2) = (c2, d2) /\
    stlinkv3_spi_shutdown d =
      (Done 0, d2, [(out_frame close_command, c1); (in_frame 2, c2)]) /\
    cell close_command 0 = STLINK_BRIDGE_COMMAND /\
    cell close_command 1 = STLINK_BRIDGE_CLOSE /\
    cell close_command 2 = STLINK_SPI_COM.
Proof.
  unfold stlinkv3_spi_shutdown, bind, libusb_bulk_transfer, ret,
    out_frame, in_frame.
  change (Z.of_nat 2) with 2.
  destruct (usb_bulk d _) as [c1 d1] eqn:H1.
  destruct (usb_bulk d1 _) as [c2 d2] eqn:H2.
  by exists c1, d1, c2, d2.
Qed.

End InitProperties.

(** ** Transactions the probe rejects *)

Section RejectedTransaction.
Context {D : Type} `{UsbDevice D}.

Lemma set_SPI_NSS_ok_shape lvl (d d' : D) r tr :
  stlinkv3_spi_set_SPI_NSS lvl d = (r, d', tr) ->
  Forall event_ok tr ->
  r = Done 0 /\ map fst tr = [out_frame (nss_command lvl); in_frame 2] /\
  status_polls tr = [] /\ starts_out tr.
Proof.
  intros Hrun Hok.
  destruct (set_SPI_NSS_ok _ _ _ _ _ Hrun Hok) as (-> & Hp & _ & Ho).
  by apply set_SPI_NSS_success in Hrun as [Hmap _].
Qed.

Lemma get_last_readwrite_status_ok_shape (d d' : D) r tr :
  stlinkv3_get_last_readwrite_status d = (r, d', tr) ->
  Forall event_ok tr ->
  exists st, r = Done (Some st) /\
             map fst tr = [out_frame status_command; in_frame 8] /\
             status_polls tr = [st] /\ starts_out tr.
Proof.
  intros Hrun Hok.
  destruct (get_last_readwrite_status_ok _ _ _ _ Hrun Hok)
    as (st & -> & Hp & _ & Ho).
  apply get_last_readwrite_status_success in Hrun as [Hmap _]. by exists st.
Qed.

Lemma transmit_err_ok_shape read_arr (d d' : D) r tr :
  transmit_err read_arr d = (r, d', tr) ->
  Forall event_ok tr ->
  r = Done (-1, read_arr) /\
  map fst tr = [out_frame (nss_command SPI_NSS_HIGH); in_frame 2] /\
  status_polls tr = [] /\ starts_out tr.
Proof.
  unfold transmit_err. intros Hrun Hok.
  apply bind_ok in Hrun as (a & d1 & t1 & t2 & Hm & Hok1 & Hf & Hok2 & ->);
    [|done|apply set_SPI_NSS_done].
  apply set_SPI_NSS_ok_shape in Hm as (_ & Hmap & Hp & Ho); [|done].
  injection Hf as <- <- <-. by rewrite app_nil_r.
Qed.

Lemma transmit_finish_ok_shape read_arr (d d' : D) r tr :
  transmit_finish read_arr d = (r, d', tr) ->
  Forall event_ok tr ->
  exists st,
    r = Done (if st =? 0 then 0 else -1, read_arr) /\
    map fst tr = [out_frame status_command; in_frame 8;
                  out_frame (nss_command SPI_NSS_HIGH); in_frame 2] /\
    status_polls tr = [st] /\ starts_out tr.
Proof.
  unfold transmit_finish. intros Hrun Hok.
  apply bind_ok in Hrun as (a & d1 & t1 & t2 & Hm & Hok1 & Hf & Hok2 & ->);
    [|done|apply get_last_readwrite_status_done].
  apply get_last_readwrite_status_ok_shape in Hm
    as (st & [= ->] & Hmap & Hp & Ho); [|done].
  exists st. destruct (Z.eqb_spec st 0) as [->|Hst]; cbn [negb] in Hf.
  - apply bind_ok in Hf as (a & d2 & t3 & t4 & Hm & Hok3 & Hf & _ & ->);
      [|done|apply set_SPI_NSS_done].
    apply set_SPI_NSS_ok_shape in Hm as ([= ->] & Hmap' & Hp' & Ho'); [|done].
    injection Hf as <- <- <-. rewrite app_nil_r.
    split; [done|]. split; [exact (map_fst_app _ _ _ _ Hmap Hmap')|].
    split; [by rewrite status_polls_app, Hp, Hp'|by apply starts_out_app].
  - apply transmit_err_ok_shape in Hf as (-> & Hmap' & Hp' & Ho'); [|done].
    split; [done|]. split; [exact (map_fst_app _ _ _ _ Hmap Hmap')|].
    split; [by rewrite status_polls_app, Hp, Hp'|by apply starts_out_app].
Qed.

Lemma transmit_read_ok_shape read_cnt command read_arr (d d' : D) r tr :
  0 <= read_cnt < 2 ^ 32 ->
  length command = 16%nat ->
  transmit_read read_cnt command read_arr d = (r, d', tr) ->
  Forall event_ok tr ->
  exists st buf,
    r = Done (if st =? 0 then 0 else -1, buf) /\
    map fst tr =
      (if read_cnt =? 0 then []
       else [out_frame (read_command read_cnt command);
             Transfer STLINK_EP_IN read_arr (int32 read_cnt) USB_TIMEOUT])
      ++ [out_frame status_command; in_frame 8;
          out_frame (nss_command SPI_NSS_HIGH); in_frame 2] /\
    status_polls tr = [st] /\ starts_out tr.
Proof.
  unfold transmit_read. intros Hcnt Hlen Hrun Hok.
  destruct (read_cnt =? 0); cbn [negb] in Hrun.
  { apply transmit_finish_ok_shape in Hrun as (st & ? & ? & ? & ?); [|done].
    by exists st, read_arr. }
  apply bind_transfer_ok in Hrun as (c1 & d1 & t1 & Hrc & Hact & Hrun & Hok1 & ->);
    [|done].
  rewrite failed_false in Hrun by done.
  apply bind_transfer_ok in Hrun as (c2 & d2 & t2 & Hrc2 & Hact2 & Hrun & Hok2 & ->);
    [|done].
  cbv zeta in Hrun. rewrite failed_u_false in Hrun by done.
  apply transmit_finish_ok_shape in Hrun as (st & -> & Hmap & Hp & Ho); [|done].
  exists st, (deliver read_arr (received c2)).
  split; [done|]. split; [cbn [map fst app]; by rewrite Hmap|].
  split; [|done].
  change (status_polls (?a :: ?b :: t2)) with (status_polls ([a; b] ++ t2)).
  rewrite (status_polls_app [_; _] t2 Ho), Hp. cbn [status_polls].
  rewrite bool_decide_false by (by apply read_command_not_status).
  by rewrite andb_false_r.
Qed.

Lemma transmit_after_write_ok_shape read_cnt command read_arr (d d' : D) r tr :
  0 <= read_cnt < 2 ^ 32 ->
  length command = 16%nat ->
  transmit_after_write read_cnt command read_arr d = (r, d', tr) ->
  Forall event_ok tr ->
  starts_out tr /\
  ((exists st, st <> 0 /\ status_polls tr = [st] /\ r = Done (-1, read_arr) /\
      map fst tr = [out_frame status_command; in_frame 8;
                    out_frame (nss_command SPI_NSS_HIGH); in_frame 2]) \/
   (exists st buf, status_polls tr = [0; st] /\
      r = Done (if st =? 0 then 0 else -1, buf) /\
      map fst tr =
        [out_frame status_command; in_frame 8]
        ++ (if read_cnt =? 0 then []
            else [out_frame (read_command read_cnt command);
                  Transfer STLINK_EP_IN read_arr (int32 read_cnt) USB_TIMEOUT])
        ++ [out_frame status_command; in_frame 8;
            out_frame (nss_command SPI_NSS_HIGH); in_frame 2])).
Proof.
  unfold transmit_after_write. intros Hcnt Hlen Hrun Hok.
  apply bind_ok in Hrun as (a & d1 & t1 & t2 & Hm & Hok1 & Hf & Hok2 & ->);
    [|done|apply get_last_readwrite_status_done].
  apply get_last_readwrite_status_ok_shape in Hm
    as (st & [= ->] & Hmap & Hp & Ho); [|done].
  split; [by apply starts_out_app|].
  destruct (Z.eqb_spec st 0) as [->|Hst]; cbn [negb] in Hf.
  - right.
    apply transmit_read_ok_shape in Hf as (st2 & buf & -> & Hmap' & Hp' & Ho');
      [|done..].
    exists st2, buf. split; [by rewrite status_polls_app, Hp, Hp'|].
    split; [done|]. exact (map_fst_app _ _ _ _ Hmap Hmap').
  - left. apply transmit_err_ok_shape in Hf as (-> & Hmap' & Hp' & Ho'); [|done].
    exists st. split; [done|]. split; [by rewrite status_polls_app, Hp, Hp'|].
    split; [done|]. exact (map_fst_app _ _ _ _ Hmap Hmap').
Qed.

(** X16. What a transaction does when every transfer completes but the probe
    may report a failure.  A nonzero status after the write phase ends the
    transaction at once: no read command is sent, chip-select is released, the
    caller's buffer is untouched and the result is -1.  Otherwise the full
    sequence of transfers runs; a nonzero status after the read makes the
    result -1 although the read has been carried out. *)
Theorem transmit_status_outcomes (write_cnt read_cnt : Z)
    (write_arr read_arr : list Z) (d d' : D) r tr :
  0 <= write_cnt < 2 ^ 32 ->
  0 <= read_cnt < 2 ^ 32 ->
  stlinkv3_spi_transmit write_cnt read_cnt write_arr read_arr d = (r, d', tr) ->
  Forall event_ok tr ->
  (exists st, st <> 0 /\ status_polls tr = [st] /\ r = Done (-1, read_arr) /\
     map fst tr = aborted_transfers write_cnt write_arr) \/
  (exists st buf, status_polls tr = [0; st] /\
     r = Done (if st =? 0 then 0 else -1, buf) /\
     map fst tr = transaction_transfers write_cnt read_cnt write_arr read_arr).
Proof.
  unfold stlinkv3_spi_transmit, aborted_transfers, transaction_transfers.
  intros Hw Hr Hrun Hok.
  apply bind_ok in Hrun as (a & d1 & t1 & t2 & Hm & Hok1 & Hf & Hok2 & ->);
    [|done|apply set_SPI_NSS_done].
  apply set_SPI_NSS_ok_shape in Hm as ([= ->] & Hmap1 & Hp1 & Ho1); [|done].
  cbn [negb Z.eqb] in Hf. cbv zeta in Hf.
  apply bind_transfer_ok in Hf as (c1 & d2 & t3 & Hrc & Hact & Hf & Hok3 & ->);
    [|done].
  rewrite failed_false in Hf by done.
  destruct (8 <? write_cnt) eqn:Hlong.
  - apply bind_transfer_ok in Hf as (c2 & d3 & t4 & Hrc2 & Hact2 & Hf & Hok4 & ->);
      [|done].
    rewrite failed_u_false in Hf by (done || (apply Z.ltb_lt in Hlong; lia)).
    apply transmit_after_write_ok_shape in Hf as (Ho & Hcases);
      [|done|apply write_command_length|done].
    change (t1 ++ ?x :: ?y :: t4) with (t1 ++ [x; y] ++ t4).
    rewrite app_assoc, status_polls_app, status_polls_app, Hp1 by done.
    destruct Hcases as [(st & Hst & Hp & -> & Hmap) | (st & buf & Hp & -> & Hmap)];
      [left; exists st | right; exists st, buf];
      rewrite Hp; repeat (split; [done|]);
      rewrite <- app_assoc;
      exact (map_fst_app _ _ _ _ Hmap1 (map_fst_app [_; _] _ _ _ eq_refl Hmap)).
  - apply transmit_after_write_ok_shape in Hf as (Ho & Hcases);
      [|done|apply write_command_length|done].
    change (t1 ++ ?x :: t3) with (t1 ++ [x] ++ t3).
    rewrite app_assoc, status_polls_app, status_polls_app, Hp1 by done.
    destruct Hcases as [(st & Hst & Hp & -> & Hmap) | (st & buf & Hp & -> & Hmap)];
      [left; exists st | right; exists st, buf];
      rewrite Hp; repeat (split; [done|]);
      rewrite <- app_assoc;
      exact (map_fst_app _ _ _ _ Hmap1 (map_fst_app [_] _ _ _ eq_refl Hmap)).
Qed.

End RejectedTransaction.

(** ** The outcome of a transaction *)

Section TransactionOutcome.
Context {D : Type} `{UsbDevice D}.

Lemma status_polls_app_nil (t1 t2 : list event) :
  starts_out t2 -> status_polls t1 = [] -> status_polls t2 = [] ->
  status_polls (t1 ++ t2) = [].
Proof. intros Ho H1 H2. by rewrite status_polls_app, H1, H2. Qed.

(** C4. In a run of [stlinkv3_spi_transmit] in which every bulk transfer is
    reported complete with the requested length, the status is polled after
    the write phase and, when that word is zero, again after the read phase.
    A nonzero first word ends the transaction: the transfers are those of
    [aborted_transfers] (no read command, no second poll), the result is -1
    and the caller's buffer is untouched.  After a zero first word the
    transfers are those of [transaction_transfers], with both polls, and the
    result is 0 when the second word is zero and -1 otherwise.  So the call
    returns 0 exactly when both polls took place and both reported zero, a
    nonzero status word at either point makes it return -1, and in every case
    the last frame written to the probe is the chip-select command with level
    High. *)
Theorem transmit_success_iff_status_zero (write_cnt read_cnt : Z)
    (write_arr read_arr : list Z) (d d' : D) r tr :
  0 <= write_cnt < 2 ^ 32 ->
  0 <= read_cnt < 2 ^ 32 ->
  stlinkv3_spi_transmit write_cnt read_cnt write_arr read_arr d = (r, d', tr) ->
  Forall event_ok tr ->
  exists ret buf,
    r = Done (ret, buf) /\
    ((exists st, st <> 0 /\ status_polls tr = [st] /\ ret = -1 /\
        buf = read_arr /\
        map fst tr = aborted_transfers write_cnt write_arr) \/
     (exists st, status_polls tr = [0; st] /\
        ret = (if st =? 0 then 0 else -1) /\
        map fst tr =
          transaction_transfers write_cnt read_cnt write_arr read_arr)) /\
    (ret = 0 <-> status_polls tr = [0; 0]) /\
    ((exists st, In st (status_polls tr) /\ st <> 0) -> ret = -1) /\
    last (sent tr) = Some (nss_command SPI_NSS_HIGH).
Proof.
  intros Hw Hr Hrun Hok.
  destruct (transmit_complete_run_polls _ _ _ _ _ _ _ _ Hw Hr Hrun Hok)
    as (ret & buf & -> & Hiff & Hneg & Hlast).
  exists ret, buf. split; [reflexivity|]. split; [|done].
  unfold stlinkv3_spi_transmit, aborted_transfers, transaction_transfers in *.
  apply bind_ok in Hrun as (a & d1 & t1 & t2 & Hm & Hok1 & Hf & Hok2 & ->);
    [|done|apply set_SPI_NSS_done].
  apply set_SPI_NSS_ok_shape in Hm as ([= ->] & Hmap1 & Hp1 & Ho1); [|done].
  cbn [negb Z.eqb] in Hf. cbv zeta in Hf.
  apply bind_transfer_ok in Hf as (c1 & d2 & t3 & Hrc & Hact & Hf & Hok3 & ->);
    [|done].
  rewrite failed_false in Hf by done.
  assert (Hpre : exists pre t4 d3,
    t3 = pre ++ t4 /\ status_polls pre = [] /\
    (pre = [] \/ starts_out pre) /\
    map fst pre =
      (if 8 <? write_cnt
       then [Transfer STLINK_EP_OUT (drop 8 write_arr) (int32 (write_cnt - 8))
               USB_TIMEOUT]
       else []) /\
    transmit_after_write read_cnt (write_command write_cnt write_arr) read_arr d3
      = (Done (ret, buf), d', t4) /\
    Forall event_ok t4).
  { destruct (8 <? write_cnt) eqn:Hlong.
    - apply bind_transfer_ok in Hf
        as (c2 & d3 & t4 & Hrc2 & Hact2 & Hf & Hok4 & ->); [|done].
      rewrite failed_u_false in Hf by (done || (apply Z.ltb_lt in Hlong; lia)).
      exists [(Transfer STLINK_EP_OUT (drop 8 write_arr)
                 (int32 (write_cnt - 8)) USB_TIMEOUT, c2)], t4, d3.
      split; [done|]. split; [done|]. split; [by right|]. done.
    - exists [], t3, d2. split; [done|]. split; [done|]. split; [by left|].
      done. }
  destruct Hpre as (pre & t4 & d3 & -> & Hppre & Hopre & Hmpre & Haw & Hok4).
  apply transmit_after_write_ok_shape in Haw as (Ho & Hcases);
    [|done|apply write_command_length|done].
  assert (Hpolls : forall sts, status_polls t4 = sts ->
    status_polls (t1 ++ (Transfer STLINK_EP_OUT
                           (write_command write_cnt write_arr) 16 USB_TIMEOUT, c1)
                        :: pre ++ t4) = sts).
  { intros sts Hsts.
    set (x := (Transfer STLINK_EP_OUT (write_command write_cnt write_arr) 16
                 USB_TIMEOUT, c1)).
    assert (Hpp : status_polls (t1 ++ [x] ++ pre) = []).
    { destruct Hopre as [-> | Hopre].
      - by apply status_polls_app_nil.
      - apply status_polls_app_nil; [done|done|].
        by apply (status_polls_app_nil [x] pre). }
    pose proof (status_polls_app (t1 ++ [x] ++ pre) t4 Ho) as E.
    rewrite Hpp, Hsts in E.
    transitivity (status_polls ((t1 ++ [x] ++ pre) ++ t4)); [|exact E].
    f_equal. by rewrite <- app_assoc. }
  assert (Hmap : forall l, map fst t4 = l ->
    map fst (t1 ++ (Transfer STLINK_EP_OUT
                      (write_command write_cnt write_arr) 16 USB_TIMEOUT, c1)
                   :: pre ++ t4) =
    [out_frame (nss_command SPI_NSS_LOW); in_frame 2;
     out_frame (write_command write_cnt write_arr)]
    ++ (if 8 <? write_cnt
        then [Transfer STLINK_EP_OUT (drop 8 write_arr) (int32 (write_cnt - 8))
                USB_TIMEOUT]
        else [])
    ++ l).
  { intros l Hl.
    change (t1 ++ ?x :: pre ++ t4) with (t1 ++ [x] ++ pre ++ t4).
    exact (map_fst_app _ _ _ _ Hmap1
             (map_fst_app [_] _ _ _ eq_refl (map_fst_app _ _ _ _ Hmpre Hl))). }
  destruct Hcases as [(st & Hst & Hp & [= -> ->] & Hm) | (st & b & Hp & [= -> ->] & Hm)].
  - left. exists st. split; [done|]. split; [by apply Hpolls|].
    split; [done|]. split; [done|]. by apply Hmap.
  - right. exists st. split; [by apply Hpolls|]. split; [done|]. by apply Hmap.
Qed.

End TransactionOutcome.

(** ** The further properties at concrete probes *)

(** X1 at a probe that answers 48000 kHz. *)
Lemma get_clk_round_trip_witness :
  stlinkv3_get_clk (script_clk 48000) =
    (Done (Some 48000), [],
     [(out_frame get_clk_command, done_out 16);
      (in_frame 12, done_in (clk_answer 48000))]).
Proof.
  apply (get_clk_round_trip 48000 (script_clk 48000)
           [done_in (clk_answer 48000)] [] (done_out 16)
           (done_in (clk_answer 48000)));
    [lia | reflexivity | reflexivity | reflexivity | reflexivity |].
  intros i Hi. do 4 (destruct i as [|i]; [vm_compute; reflexivity|]). lia.
Defined.

(** X2 at a probe that reports the status word 0x01020304. *)
Lemma get_last_readwrite_status_round_trip_witness :
  stlinkv3_get_last_readwrite_status
    [done_out 16; done_in (status_answer 16909060)] =
    (Done (Some 16909060), [],
     [(out_frame status_command, done_out 16);
      (in_frame 8, done_in (status_answer 16909060))]).
Proof.
  apply (get_last_readwrite_status_round_trip 16909060
           [done_out 16; done_in (status_answer 16909060)]
           [done_in (status_answer 16909060)] [] (done_out 16)
           (done_in (status_answer 16909060)));
    [lia | reflexivity | reflexivity | reflexivity | reflexivity |].
  intros i Hi. do 4 (destruct i as [|i]; [vm_compute; reflexivity|]). lia.
Defined.

(** X4 at a JEDEC id read in which every transfer completes. *)
Lemma transmit_success_transfers_witness :
  let run := stlinkv3_spi_transmit 1 3 [0x9F] [0; 0; 0]
               (script_transaction 0 0 [0xEF; 0x40; 0x18]) in
  map fst run.2 = transaction_transfers 1 3 [0x9F] [0; 0; 0] /\
  Forall accepted run.2 /\ status_polls run.2 = [0; 0].
Proof.
  intros run.
  apply (transmit_success_transfers 1 3 [0x9F] [0; 0; 0] [0xEF; 0x40; 0x18]
           (script_transaction 0 0 [0xEF; 0x40; 0x18]) [] run.2);
    [lia | lia | vm_compute; reflexivity].
Defined.

(** X5 at the same read. *)
Lemma transmit_success_data_witness :
  let run := stlinkv3_spi_transmit 1 3 [0x9F] [0; 0; 0]
               (script_transaction 0 0 [0xEF; 0x40; 0x18]) in
  let buf := [0xEF; 0x40; 0x18] in
  length buf = length [0; 0; 0] /\
  (3 = 0 -> buf = [0; 0; 0]) /\
  (3 <> 0 ->
   exists c,
     run.2 !! (if 8 <? 1 then 7%nat else 6%nat)
       = Some (Transfer STLINK_EP_IN [0; 0; 0] (int32 3) USB_TIMEOUT, c) /\
     buf = deliver [0; 0; 0] (received c) /\
     (length (received c) = length [0; 0; 0] -> buf = received c)).
Proof.
  intros run buf.
  apply (transmit_success_data 1 3 [0x9F] [0; 0; 0] buf
           (script_transaction 0 0 [0xEF; 0x40; 0x18]) [] run.2);
    [lia | lia | vm_compute; reflexivity].
Defined.

(** X6 at a payload of 10 bytes and a read of 3. *)
Lemma command_frames_layout_witness :
  let write_arr := [1; 2; 3; 4; 5; 6; 7; 8; 9; 10] in
  let w := write_command 10 write_arr in
  let r := read_command 3 w in
  length w = 16%nat /\ length r = 16%nat /\
  (forall k : nat, 4 + Z.min 8 10 <= Z.of_nat k -> cell w k = 0) /\
  (forall write_arr',
     (forall i : nat, Z.of_nat i < Z.min 8 10 ->
                      cell write_arr' i = cell write_arr i) ->
     write_command 10 write_arr' = w) /\
  cell r 0 = STLINK_BRIDGE_COMMAND /\
  cell r 1 = STLINK_BRIDGE_READ_SPI /\
  cell r 2 = 3 mod 2 ^ 8 /\
  cell r 3 = (3 / 2 ^ 8) mod 2 ^ 8 /\
  (forall k : nat, (4 <= k)%nat -> cell r k = cell w k).
Proof.
  apply (command_frames_layout 10 3 [1; 2; 3; 4; 5; 6; 7; 8; 9; 10]). lia.
Defined.

(** X8 at a probe that reports 48000 kHz, request 20000 kHz. *)
Lemma calc_prescaler_bounds_witness :
  let d := script_clk 48000 in
  let tr := (stlinkv3_get_clk d).2 in
  exists p freq,
    stlinkv3_spi_calc_prescaler 20000 d = (Done (Some (p, freq)), [], tr) /\
    (48000 / 20000 <= 256 ->
     2 * freq <= 3 * 20000 /\
     (48000 / 20000 < prescaler_divisor p -> freq <= 20000) /\
     (48000 mod 20000 = 0 -> freq <= 20000)) /\
    (256 < 48000 / 20000 -> prescaler_divisor p = 256 /\ 20000 <= 48000 / 256).
Proof.
  apply (calc_prescaler_bounds 20000 48000 (script_clk 48000) []);
    [vm_compute; reflexivity | lia].
Defined.

(** X9 at a probe with firmware 3 and a 48000 kHz clock. *)
Lemma open_success_transfers_witness :
  let d := script_open 48000 (done_out 16) in
  let tr := (stlinkv3_spi_open 1000 d).2 in
  1000 <> 0 /\
  exists d1 t1 d2 t2 c,
    stlinkv3_check_version d = (Done (Some FW_VERSION_OK), d1, t1) /\
    stlinkv3_get_clk d1 = (Done (Some c), d2, t2) /\
    map fst tr = open_transfers (select_prescaler (c / 1000)).1 /\
    forall (i : nat) e, i <> 4%nat -> tr !! i = Some e -> event_ok e.
Proof.
  intros d tr.
  apply (open_success_transfers 1000 d []). vm_compute. reflexivity.
Defined.

(** X10 at a probe with firmware 2. *)
Lemma open_init_only_after_checks_witness :
  let d := [done_out 16; done_in (version_answer 2)] in
  let r := (stlinkv3_spi_open 1000 d).1.1 in
  let tr := (stlinkv3_spi_open 1000 d).2 in
  (r = Done 0 \/ r = Done (-1) \/ r = Undefined /\ 1000 = 0) /\
  (sent tr = [version_command] \/
   sent tr = [version_command; get_clk_command] \/
   1000 <> 0 /\
   exists d1 t1 d2 t2 c,
     stlinkv3_check_version d = (Done (Some FW_VERSION_OK), d1, t1) /\
     stlinkv3_get_clk d1 = (Done (Some c), d2, t2) /\
     sent tr = [version_command; get_clk_command;
                init_command (select_prescaler (c / 1000)).1]) /\
  forall p, In (init_command p) (sent tr) ->
            exists c, p = (select_prescaler (c / 1000)).1 /\
                      last (sent tr) = Some (init_command p).
Proof.
  intros d r tr.
  apply (open_init_only_after_checks 1000 d []). vm_compute. reflexivity.
Defined.

(** X12 at a probe with firmware 3, no [spispeed] parameter and
    registrations that succeed. *)
Lemma init_success_iff_witness :
  let d := script_open 48000 (done_out 16) in
  let r := (stlinkv3_spi_init (2 ^ 64 - 1) true None true None 0 0 d).1.1 in
  let tr := (stlinkv3_spi_init (2 ^ 64 - 1) true None true None 0 0 d).2 in
  exists ro,
    stlinkv3_spi_open 1000 d = (ro, [], tr) /\
    (r = Done 0 <-> ro = Done 0 /\ 0 = 0 /\ 0 = 0) /\
    (r = Done 0 \/ r = Done 1 \/ r = Undefined /\ ro = Undefined).
Proof.
  intros d r tr.
  apply (init_success_iff (2 ^ 64 - 1) 0 0 1000 None None d []);
    [by left | vm_compute; reflexivity].
Defined.

(** X13 at [spispeed=65536] with a 64-bit [unsigned long]. *)
Lemma init_speed_wraps_to_zero_witness :
  let d := [done_out 16; done_in (version_answer 3);
            done_out 16; done_in (clk_answer 48000)] in
  stlinkv3_spi_init (2 ^ 64 - 1) true None true (Some "65536"%string) 0 0 d =
    (Undefined, [],
     (stlinkv3_check_version d).2 ++ (stlinkv3_get_clk (script_clk 48000)).2).
Proof.
  intros d.
  apply (init_speed_wraps_to_zero (2 ^ 64 - 1) 65536 48000 0 0 "65536" None d
           (script_clk 48000) []);
    vm_compute; reflexivity.
Defined.

(** X15 at the transaction whose first status poll times out. *)
Lemma transmit_release_witness :
  let run := stlinkv3_spi_transmit 1 3 [0x9F] [0; 0; 0]
               script_status_poll_timeout in
  run.1.1 = Done (-1, [0; 0; 0]) /\ sent run.2 = [nss_command SPI_NSS_LOW] \/
  last (sent run.2) = Some (nss_command SPI_NSS_HIGH) \/
  run.1.1 = Done (-1, [0; 0; 0]) /\ last (sent run.2) = Some status_command /\
  exists (d1 : script) t1 t2, run.2 = t1 ++ t2 /\
    stlinkv3_get_last_readwrite_status d1 = (Done None, [], t2).
Proof.
  intros run.
  apply (transmit_release 1 3 [0x9F] [0; 0; 0] script_status_poll_timeout []).
  vm_compute. reflexivity.
Defined.

(** X16 at a write that the probe rejects with status 2. *)
Lemma transmit_status_outcomes_witness :
  let probe := [done_out 16; done_in ack; done_out 16;
                done_out 16; done_in (status_answer 2);
                done_out 16; done_in ack] in
  let run := stlinkv3_spi_transmit 1 3 [0x9F] [0; 0; 0] probe in
  (exists st, st <> 0 /\ status_polls run.2 = [st] /\
     run.1.1 = Done (-1, [0; 0; 0]) /\
     map fst run.2 = aborted_transfers 1 [0x9F]) \/
  (exists st buf, status_polls run.2 = [0; st] /\
     run.1.1 = Done (if st =? 0 then 0 else -1, buf) /\
     map fst run.2 = transaction_transfers 1 3 [0x9F] [0; 0; 0]).
Proof.
  intros probe run.
  apply (transmit_status_outcomes 1 3 [0x9F] [0; 0; 0] probe run.1.2);
    [lia | lia | vm_compute; reflexivity |].
  vm_compute. repeat (constructor; [split; reflexivity|]). constructor.
Defined.

(** C4 at a JEDEC id read in which every transfer completes. *)
Lemma transmit_success_iff_status_zero_witness :
  let run := stlinkv3_spi_transmit 1 3 [0x9F] [0; 0; 0]
               (script_transaction 0 0 [0xEF; 0x40; 0x18]) in
  exists ret buf,
    run.1.1 = Done (ret, buf) /\
    ((exists st, st <> 0 /\ status_polls run.2 = [st] /\ ret = -1 /\
        buf = [0; 0; 0] /\
        map fst run.2 = aborted_transfers 1 [0x9F]) \/
     (exists st, status_polls run.2 = [0; st] /\
        ret = (if st =? 0 then 0 else -1) /\
        map fst run.2 = transaction_transfers 1 3 [0x9F] [0; 0; 0])) /\
    (ret = 0 <-> status_polls run.2 = [0; 0]) /\
    ((exists st, In st (status_polls run.2) /\ st <> 0) -> ret = -1) /\
    last (sent run.2) = Some (nss_command SPI_NSS_HIGH).
Proof.
  intros run.
  apply (transmit_success_iff_status_zero 1 3 [0x9F] [0; 0; 0]
           (script_transaction 0 0 [0xEF; 0x40; 0x18]) run.1.2 run.1.1 run.2);
    [lia | lia | vm_compute; reflexivity |].
  vm_compute. repeat (constructor; [split; reflexivity|]). constructor.
Defined.
